(** * SST LuminOx O2 sensor driver: model of [luminox.c] / [luminox.h]

    The driver is embedded shallowly.  Bytes, enum values and the scan index
    are integers ([Z]); the receive buffer [luminox_data] is a list of bytes
    whose length is [UART_RX_BUF_SIZE] for every well-formed handler.  A read
    outside the buffer is undefined behaviour in C; the model reports it as
    the outcome [OutOfBounds] instead of inventing a value.

    [atof] and the C type [float] belong to the C library, not to the driver:
    they are parameters of the development, [atof] standing for the call
    followed by the conversion of its [double] to [float].  The driver hands
    [atof] a local array that holds the copied field and no terminator, so
    [atof] reads the copied bytes and then goes on into whatever lies behind
    the array.  Those bytes are not the driver's: they are a parameter of
    every decode ([behind]), and the text [atof] converts is the copied field
    followed by them.  Nothing is assumed about them; a statement about a
    cached value names them.

    The callback [luminox_tx] is a parameter as well.  The flag
    [luminox_complete_uart_rx] polled by [luminox_wait_for_response] is
    volatile and written by the UART event handler: the model takes the
    values the successive reads return as a parameter. *)

From Stdlib Require Import ZArith Lia QArith String Ascii.
From stdpp Require Import base list.

Open Scope Z_scope.

(** ** Constants of [luminox.h] *)

Definition UART_RX_BUF_SIZE : nat := 128.

Definition RESPONSE_TIMEOUT : Z := 0x989680.

Definition MODE_OUTPUT : Z := 0x4D.
Definition PPO2 : Z := 0x4F.
Definition O2 : Z := 0x25.
Definition TEMPERATURE : Z := 0x54.
Definition BAROMETRIC_PRESSURE : Z := 0x50.
Definition ALL : Z := 0x41.
Definition SENSOR_STATUS : Z := 0x65.
Definition SENSOR_INFORMATION : Z := 0x23.
Definition SEPARATOR : Z := 0x20.
Definition TERMINATOR : Z := 0x0A.
Definition ERROR_RESPONSE : Z := 0x45.

(** [luminox_mode_t] *)
Definition LUMINOX_MODE_STREAMING : Z := 0.
Definition LUMINOX_MODE_POLLING : Z := 1.
Definition LUMINOX_MODE_OFF : Z := 2.
Definition LUMINOX_MODE_DEFAULT : Z := LUMINOX_MODE_OFF.

(** [luminox_sensor_info_t] *)
Definition LUMINOX_INFO_DATE_OF_MFG : Z := 0.
Definition LUMINOX_INFO_SERIAL_NUM : Z := 1.
Definition LUMINOX_INFO_SW_VER : Z := 2.

(** [luminox_retcode_t] *)
Definition LUMINOX_ERR_RX_OVERFLOW : Z := 0.
Definition LUMINOX_ERR_INVALID_CMD : Z := 1.
Definition LUMINOX_ERR_INVALID_FRAME : Z := 2.
Definition LUMINOX_ERR_INVALID_ARG : Z := 3.
Definition LUMINOX_ERR_INVALID_MODE : Z := 4.
Definition LUMINOX_ERR_INVALID_INFO : Z := 5.
Definition LUMINOX_ERR_TIMEOUT : Z := 6.
Definition LUMINOX_ERROR : Z := 7.
Definition LUMINOX_SUCCESS : Z := 8.

(** [uint16_t] arithmetic of the scan index. *)
Definition u16 (z : Z) : Z := z mod 65536.

(** Result of running code that may read outside the receive buffer. *)
Inductive outcome (A : Type) : Type :=
| Done (a : A)
| OutOfBounds
| OutOfFuel.
Arguments Done {A} a.
Arguments OutOfBounds {A}.
Arguments OutOfFuel {A}.

(** A state monad with a fault: the operations of the driver thread the
    driver state; [None] marks a run that left defined behaviour, with the
    state at that point. *)
Definition M (S A : Type) : Type := S -> option A * S.

#[global] Instance M_ret {S : Type} : MRet (M S) :=
  fun A a s => (Some a, s).

#[global] Instance M_bind {S : Type} : MBind (M S) :=
  fun A B k c s => match c s with
                   | (Some a, s') => k a s'
                   | (None, s') => (None, s')
                   end.

Definition get {S : Type} : M S S := fun s => (Some s, s).

Definition modify {S : Type} (f : S -> S) : M S unit := fun s => (Some tt, f s).

Section Driver.

(** The C library: the type [float], the constant [0] at that type, and
    [atof] on the bytes it is given. *)
Context {float : Type}.
Variable float_zero : float.
Variable atof : list Z -> float.

(** [luminox_handler_t], without the [luminox_tx] pointer, which is the
    transport parameter further down. *)
Record luminox_handler_t : Type := mk_handler {
  current_mode : Z;
  current_ppO2 : float;
  current_O2 : float;
  current_temp : float;
  current_barometric_pressure : float;
  luminox_data : list Z;
  err_code : Z
}.

Definition wf_handler (h : luminox_handler_t) : Prop :=
  length (luminox_data h) = UART_RX_BUF_SIZE.

Definition set_current_mode (m : Z) (h : luminox_handler_t) :=
  mk_handler m (current_ppO2 h) (current_O2 h) (current_temp h)
    (current_barometric_pressure h) (luminox_data h) (err_code h).
Definition set_current_ppO2 (v : float) (h : luminox_handler_t) :=
  mk_handler (current_mode h) v (current_O2 h) (current_temp h)
    (current_barometric_pressure h) (luminox_data h) (err_code h).
Definition set_current_O2 (v : float) (h : luminox_handler_t) :=
  mk_handler (current_mode h) (current_ppO2 h) v (current_temp h)
    (current_barometric_pressure h) (luminox_data h) (err_code h).
Definition set_current_temp (v : float) (h : luminox_handler_t) :=
  mk_handler (current_mode h) (current_ppO2 h) (current_O2 h) v
    (current_barometric_pressure h) (luminox_data h) (err_code h).
Definition set_current_barometric_pressure (v : float) (h : luminox_handler_t) :=
  mk_handler (current_mode h) (current_ppO2 h) (current_O2 h) (current_temp h)
    v (luminox_data h) (err_code h).
Definition set_luminox_data (d : list Z) (h : luminox_handler_t) :=
  mk_handler (current_mode h) (current_ppO2 h) (current_O2 h) (current_temp h)
    (current_barometric_pressure h) d (err_code h).
Definition set_err_code (e : Z) (h : luminox_handler_t) :=
  mk_handler (current_mode h) (current_ppO2 h) (current_O2 h) (current_temp h)
    (current_barometric_pressure h) (luminox_data h) e.

(** [luminox_handler->luminox_data[i]] *)
Definition read (h : luminox_handler_t) (i : Z) : option Z :=
  if i <? 0 then None else luminox_data h !! Z.to_nat i.

(** [memcpy(dst, &luminox_handler->luminox_data[i], n)]: the [n] bytes
    from index [i], when they all lie inside the buffer. *)
Definition memcpy_from (h : luminox_handler_t) (i : Z) (n : nat) : option (list Z) :=
  if i <? 0 then None
  else
    let bytes := take n (drop (Z.to_nat i) (luminox_data h)) in
    if Nat.eqb (length bytes) n then Some bytes else None.

(** [luminox_error_handler]: switch on [luminox_data[3]]. *)
Definition luminox_error_handler (h : luminox_handler_t) : option Z :=
  match read h 3 with
  | None => None
  | Some b =>
      Some (if b =? 0x30 then LUMINOX_ERR_RX_OVERFLOW
            else if b =? 0x31 then LUMINOX_ERR_INVALID_CMD
            else if b =? 0x32 then LUMINOX_ERR_INVALID_FRAME
            else if b =? 0x33 then LUMINOX_ERR_INVALID_ARG
            else LUMINOX_ERROR)
  end.

(** What one iteration of the [while] loop of [luminox_process_response]
    does at index [i]: leave the loop ([Break], for the loop condition
    finding the line feed and for [goto EndWhile]), go on at a new index
    ([Continue], after the [i++] at the end of the body), or read outside
    the receive buffer ([Fault]). *)
Inductive step_result : Type :=
| Break (h : luminox_handler_t)
| Continue (h : luminox_handler_t) (i : Z)
| Fault.

(** [behind j] is what lies in memory behind the local array ([ppo2_data],
    [o2_data], [temp_data], [barometric_data]) when [atof] is called on the
    field copied from index [j]: the array has no terminator, so the text
    [atof] converts is the copied bytes followed by [behind j]. *)
Definition loop_step (behind : Z -> list Z) (h : luminox_handler_t) (i : Z)
  : step_result :=
  match read h i with
  | None => Fault
  | Some c =>
      if c =? TERMINATOR then Break h
      else if c =? ERROR_RESPONSE then
        match luminox_error_handler h with
        | None => Fault
        | Some e => Break (set_err_code e h)
        end
      else if c =? MODE_OUTPUT then
        match read h (i + 3) with
        | None => Fault
        | Some d =>
            Break (if d =? 0x30 then set_current_mode LUMINOX_MODE_STREAMING h
                   else if d =? 0x31 then set_current_mode LUMINOX_MODE_POLLING h
                   else if d =? 0x32 then set_current_mode LUMINOX_MODE_OFF h
                   else h)
        end
      else if c =? PPO2 then
        let i := u16 (i + 2) in
        match memcpy_from h i 6 with
        | None => Fault
        | Some ppo2_data =>
            let h := set_current_ppO2 (atof (ppo2_data ++ behind i)) h in
            let i := u16 (i + 5) in
            Continue h (u16 (i + 1))
        end
      else if c =? O2 then
        let i := u16 (i + 2) in
        match memcpy_from h i 6 with
        | None => Fault
        | Some o2_data =>
            let h := set_current_O2 (atof (o2_data ++ behind i)) h in
            let i := u16 (i + 5) in
            Continue h (u16 (i + 1))
        end
      else if c =? TEMPERATURE then
        let i := u16 (i + 2) in
        match memcpy_from h i 5 with
        | None => Fault
        | Some temp_data =>
            let h := set_current_temp (atof (temp_data ++ behind i)) h in
            let i := u16 (i + 4) in
            Continue h (u16 (i + 1))
        end
      else if c =? BAROMETRIC_PRESSURE then
        let i := u16 (i + 2) in
        match memcpy_from h i 4 with
        | None => Fault
        | Some barometric_data =>
            let h := set_current_barometric_pressure (atof (barometric_data ++ behind i)) h in
            let i := u16 (i + 3) in
            Continue h (u16 (i + 1))
        end
      else if c =? SEPARATOR then Continue h (u16 (i + 1))
      else if c =? SENSOR_STATUS then Continue h (u16 (i + 1))
      else if c =? SENSOR_INFORMATION then Continue h (u16 (i + 1))
      else Continue h (u16 (i + 1))
  end.

(** The loop, one iteration per unit of fuel, from index [i]. *)
Fixpoint process_loop (behind : Z -> list Z) (fuel : nat)
  (h : luminox_handler_t) (i : Z) : outcome luminox_handler_t :=
  match fuel with
  | O => OutOfFuel
  | S fuel' =>
      match loop_step behind h i with
      | Break h' => Done h'
      | Continue h' i' => process_loop behind fuel' h' i'
      | Fault => OutOfBounds
      end
  end.

(** [luminox_process_response]: the loop from index 0, then the
    assignment [err_code = LUMINOX_SUCCESS] after the label [EndWhile].
    The index grows by at least one per iteration and every read beyond
    the buffer stops the run, so one unit of fuel per buffer byte plus one
    is enough (lemma [process_loop_fuel]). *)
Definition luminox_process_response (behind : Z -> list Z)
  (h : luminox_handler_t) : outcome luminox_handler_t :=
  match process_loop behind (S (length (luminox_data h))) h 0 with
  | Done h' => Done (set_err_code LUMINOX_SUCCESS h')
  | OutOfBounds => OutOfBounds
  | OutOfFuel => OutOfFuel
  end.

(** Two runs over the same buffer that meet the same bytes behind the local
    arrays perform the same writes: each cached field is either left alone
    in both runs or ends with the same value. *)
Definition same_writes (h h' g g' : luminox_handler_t) : Prop :=
  luminox_data g' = luminox_data g /\
  ((current_mode h' = current_mode h /\ current_mode g' = current_mode g)
   \/ current_mode g' = current_mode h') /\
  ((current_ppO2 h' = current_ppO2 h /\ current_ppO2 g' = current_ppO2 g)
   \/ current_ppO2 g' = current_ppO2 h') /\
  ((current_O2 h' = current_O2 h /\ current_O2 g' = current_O2 g)
   \/ current_O2 g' = current_O2 h') /\
  ((current_temp h' = current_temp h /\ current_temp g' = current_temp g)
   \/ current_temp g' = current_temp h') /\
  ((current_barometric_pressure h' = current_barometric_pressure h /\
    current_barometric_pressure g' = current_barometric_pressure g)
   \/ current_barometric_pressure g' = current_barometric_pressure h').

(** Two runs over the same buffer that may meet different bytes behind the
    local arrays still write the mode alike: it is left alone in both or
    ends with the same value. *)
Definition same_mode_write (h h' g g' : luminox_handler_t) : Prop :=
  luminox_data g' = luminox_data g /\
  ((current_mode h' = current_mode h /\ current_mode g' = current_mode g)
   \/ current_mode g' = current_mode h').

(** *** The transport and the operations *)

Definition valid_mode (mode : Z) : Prop :=
  mode = LUMINOX_MODE_STREAMING \/ mode = LUMINOX_MODE_POLLING \/
  mode = LUMINOX_MODE_OFF.

Definition valid_info (info : Z) : Prop :=
  info = LUMINOX_INFO_DATE_OF_MFG \/ info = LUMINOX_INFO_SERIAL_NUM \/
  info = LUMINOX_INFO_SW_VER.

(** The command frames as the data sheet writes them, ["M <d>\r\n"] and
    ["# <d>\r\n"], with [<d>] the ASCII digit of the argument. *)
Definition mode_command (mode : Z) : list Z := [0x4D; 0x20; 0x30 + mode; 0x0D; 0x0A].

Definition info_command (info : Z) : list Z := [0x23; 0x20; 0x30 + info; 0x0D; 0x0A].


(** The callback [luminox_tx] is caller-supplied.  Its effect on the driver
    is what the README prescribes: it sends [size] bytes of [request] and
    the UART event handler passes each complete response to
    [luminox_update_data].  [W] is the state of everything outside the
    driver (the line and the sensor); the callback returns the responses
    it delivered, each with the [size] argument of [luminox_update_data]. *)
Context {W : Type}.
Variable luminox_tx : list Z -> Z -> W -> W * list (list Z * Z).

(** What lies behind the local arrays of [luminox_process_response] is
    outside the driver state as well: [stack_behind w] gives it for the
    decode that runs when the world is [w]. *)
Variable stack_behind : W -> Z -> list Z.

(** Driver state: the handler, the outside world, and the frames handed to
    [luminox_tx] so far (ghost log). *)
Record driver_state : Type := mk_state {
  handler : luminox_handler_t;
  world : W;
  sent : list (list Z)
}.

Definition on_handler (f : luminox_handler_t -> luminox_handler_t)
  (st : driver_state) : driver_state :=
  mk_state (f (handler st)) (world st) (sent st).

(** [luminox_update_data]: [memcpy(luminox_data, p_response, size)] with
    [size] a [uint8_t].  The copy is defined when it stays inside both
    arrays. *)
Definition luminox_update_data (p_response : list Z) (size : Z)
  (h : luminox_handler_t) : option luminox_handler_t :=
  let n := Z.to_nat size in
  if (0 <=? size) && (size <=? 255)
     && Nat.leb n (length p_response) && Nat.leb n (length (luminox_data h))
  then Some (set_luminox_data (take n p_response ++ drop n (luminox_data h)) h)
  else None.

Fixpoint deliver (rs : list (list Z * Z)) (h : luminox_handler_t)
  : option luminox_handler_t :=
  match rs with
  | [] => Some h
  | (r, size) :: rs' =>
      match luminox_update_data r size h with
      | Some h' => deliver rs' h'
      | None => None
      end
  end.

(** [luminox_handler->luminox_tx(request, size)] *)
Definition call_luminox_tx (request : list Z) (size : Z) : M driver_state unit :=
  fun st =>
    let '(w', rs) := luminox_tx request size (world st) in
    let log := sent st ++ [take (Z.to_nat size) request] in
    match deliver rs (handler st) with
    | Some h' => (Some tt, mk_state h' w' log)
    | None => (None, mk_state (handler st) w' log)
    end.

(** [luminox_process_response(luminox_handler)] as a step of an operation. *)
Definition process_response_step : M driver_state unit :=
  fun st =>
    match luminox_process_response (stack_behind (world st)) (handler st) with
    | Done h' => (Some tt, mk_state h' (world st) (sent st))
    | _ => (None, st)
    end.

(** [return luminox_handler->err_code] *)
Definition return_err_code : M driver_state Z :=
  st ← get; mret (err_code (handler st)).

(** The common tail of every request: transmit, decode, return [err_code]. *)
Definition transact (request : list Z) (size : Z) : M driver_state Z :=
  call_luminox_tx request size ;;
  process_response_step ;;
  return_err_code.

(** [unsigned char mode_msg[] = "M x\r\n"] with its terminating NUL. *)
Definition mode_msg_init : list Z := [0x4D; 0x20; 0x78; 0x0D; 0x0A; 0].

(** The [switch(mode)] of [luminox_set_ouput_mode]: the message with
    [mode_msg[2]] set, or [None] for the [default] case. *)
Definition mode_msg (mode : Z) : option (list Z) :=
  if mode =? LUMINOX_MODE_STREAMING then Some (<[2%nat := 0x30]> mode_msg_init)
  else if mode =? LUMINOX_MODE_POLLING then Some (<[2%nat := 0x31]> mode_msg_init)
  else if mode =? LUMINOX_MODE_OFF then Some (<[2%nat := 0x32]> mode_msg_init)
  else None.

Definition luminox_set_ouput_mode (mode : Z) : M driver_state Z :=
  match mode_msg mode with
  | None => mret LUMINOX_ERR_INVALID_MODE
  | Some msg => transact msg 5
  end.

Definition luminox_get_output_mode (h : luminox_handler_t) : Z := current_mode h.

(** ["O\r\n"], ["%\r\n"], ["T\r\n"], ["P\r\n"], ["e\r\n"], ["A\r\n"] *)
Definition luminox_request_ppO2 : M driver_state Z :=
  transact [0x4F; 0x0D; 0x0A; 0] 3.
Definition luminox_get_ppO2 (h : luminox_handler_t) : float := current_ppO2 h.

Definition luminox_request_O2 : M driver_state Z :=
  transact [0x25; 0x0D; 0x0A; 0] 3.
Definition luminox_get_O2 (h : luminox_handler_t) : float := current_O2 h.

Definition luminox_request_temp : M driver_state Z :=
  transact [0x54; 0x0D; 0x0A; 0] 3.
Definition luminox_get_temp (h : luminox_handler_t) : float := current_temp h.

Definition luminox_request_barometric_pressure : M driver_state Z :=
  transact [0x50; 0x0D; 0x0A; 0] 3.
Definition luminox_get_barometric_pressure (h : luminox_handler_t) : float :=
  current_barometric_pressure h.

Definition luminox_request_sensor_status : M driver_state Z :=
  transact [0x65; 0x0D; 0x0A; 0] 3.

Definition luminox_request_all : M driver_state Z :=
  transact [0x41; 0x0D; 0x0A; 0] 3.

(** [unsigned char info_req[] = "# x\r\n"] *)
Definition info_req_init : list Z := [0x23; 0x20; 0x78; 0x0D; 0x0A; 0].

Definition info_req (info : Z) : option (list Z) :=
  if info =? LUMINOX_INFO_DATE_OF_MFG then Some (<[2%nat := 0x30]> info_req_init)
  else if info =? LUMINOX_INFO_SERIAL_NUM then Some (<[2%nat := 0x31]> info_req_init)
  else if info =? LUMINOX_INFO_SW_VER then Some (<[2%nat := 0x32]> info_req_init)
  else None.

Definition luminox_request_sensor_info (info : Z) : M driver_state Z :=
  match info_req info with
  | None => mret LUMINOX_ERR_INVALID_INFO
  | Some msg => transact msg 5
  end.

(** [luminox_init] *)
Definition luminox_init : M driver_state unit :=
  e ← luminox_set_ouput_mode LUMINOX_MODE_POLLING;
  modify (on_handler (set_err_code e)) ;;
  luminox_request_sensor_info LUMINOX_INFO_DATE_OF_MFG ;;
  luminox_request_sensor_info LUMINOX_INFO_SERIAL_NUM ;;
  luminox_request_sensor_info LUMINOX_INFO_SW_VER ;;
  luminox_set_ouput_mode LUMINOX_MODE_DEFAULT ;;
  modify (on_handler (set_current_mode LUMINOX_MODE_DEFAULT)) ;;
  modify (on_handler (set_current_ppO2 float_zero)) ;;
  modify (on_handler (set_current_O2 float_zero)) ;;
  modify (on_handler (set_current_temp float_zero)) ;;
  modify (on_handler (set_current_barometric_pressure float_zero)) ;;
  modify (on_handler (set_luminox_data (replicate UART_RX_BUF_SIZE 0))) ;;
  modify (on_handler (set_err_code LUMINOX_SUCCESS)).

(** *** Frames made of full-length fields

    The shapes the source documents for the replies: ["O xxxx.x"],
    ["% xxx.xx"], ["T yxx.x"], ["P xxxx"], and single bytes that are no tag
    with an effect (separators, the status and information tags, digits,
    the carriage return). *)
Inductive field : Type :=
| F_ppO2 (d : list Z)
| F_O2 (d : list Z)
| F_temp (d : list Z)
| F_pressure (d : list Z)
| F_other (b : Z).

Definition field_bytes (f : field) : list Z :=
  match f with
  | F_ppO2 d => PPO2 :: SEPARATOR :: d
  | F_O2 d => O2 :: SEPARATOR :: d
  | F_temp d => TEMPERATURE :: SEPARATOR :: d
  | F_pressure d => BAROMETRIC_PRESSURE :: SEPARATOR :: d
  | F_other b => [b]
  end.

Definition field_ok (f : field) : bool :=
  match f with
  | F_ppO2 d => Nat.eqb (length d) 6
  | F_O2 d => Nat.eqb (length d) 6
  | F_temp d => Nat.eqb (length d) 5
  | F_pressure d => Nat.eqb (length d) 4
  | F_other b =>
      negb ((b =? TERMINATOR) || (b =? ERROR_RESPONSE) || (b =? MODE_OUTPUT)
            || (b =? PPO2) || (b =? O2) || (b =? TEMPERATURE)
            || (b =? BAROMETRIC_PRESSURE))
  end.

(** What the decoder caches for a field that starts at index [i] of the
    buffer: [atof] of the field's bytes followed by what lies behind the
    local array at that call. *)
Definition apply_field (behind : Z -> list Z) (i : Z) (h : luminox_handler_t)
  (f : field) : luminox_handler_t :=
  match f with
  | F_ppO2 d => set_current_ppO2 (atof (d ++ behind (i + 2))) h
  | F_O2 d => set_current_O2 (atof (d ++ behind (i + 2))) h
  | F_temp d => set_current_temp (atof (d ++ behind (i + 2))) h
  | F_pressure d => set_current_barometric_pressure (atof (d ++ behind (i + 2))) h
  | F_other _ => h
  end.

(** The same for a run of fields, the first of which starts at index [i]. *)
Fixpoint apply_fields (behind : Z -> list Z) (i : Z) (h : luminox_handler_t)
  (fs : list field) : luminox_handler_t :=
  match fs with
  | [] => h
  | f :: fs' =>
      apply_fields behind (i + Z.of_nat (length (field_bytes f)))
        (apply_field behind i h f) fs'
  end.

Definition frame_bytes (fs : list field) : list Z :=
  flat_map field_bytes fs ++ [TERMINATOR].



(** A cached value whose tag byte does not occur in the buffer is not
    written by an iteration. *)
Definition untagged_kept (h h' : luminox_handler_t) : Prop :=
  (PPO2 ∉ luminox_data h -> current_ppO2 h' = current_ppO2 h) /\
  (O2 ∉ luminox_data h -> current_O2 h' = current_O2 h) /\
  (TEMPERATURE ∉ luminox_data h -> current_temp h' = current_temp h) /\
  (BAROMETRIC_PRESSURE ∉ luminox_data h ->
   current_barometric_pressure h' = current_barometric_pressure h) /\
  (MODE_OUTPUT ∉ luminox_data h -> current_mode h' = current_mode h).

(** Without a line feed, an ['E'] or an ['M'] no iteration leaves the loop. *)
Definition no_stop_byte (h : luminox_handler_t) : Prop :=
  forall b, b ∈ luminox_data h ->
    b <> TERMINATOR /\ b <> ERROR_RESPONSE /\ b <> MODE_OUTPUT.

(** *** Waiting for a reply *)

(** [uint32_t] arithmetic of the poll counter. *)
Definition u32 (z : Z) : Z := z mod 4294967296.

(** The loop of [luminox_wait_for_response].  The flag
    [luminox_complete_uart_rx] is read once per evaluation of the loop
    condition and [timer] counts the evaluations, so [rx t] is the value read
    while [timer] is [t].  The result is the returned code, the handler, and
    whether the closing store [luminox_complete_uart_rx = false] was
    reached. *)
Fixpoint wait_loop (fuel : nat) (rx : Z -> bool) (timer : Z)
  (h : luminox_handler_t) : outcome (Z * luminox_handler_t * bool) :=
  match fuel with
  | O => OutOfFuel
  | S fuel' =>
      if rx timer then Done (LUMINOX_SUCCESS, h, true)
      else if RESPONSE_TIMEOUT <=? timer then
        Done (LUMINOX_ERR_TIMEOUT, set_err_code LUMINOX_ERR_TIMEOUT h, false)
      else wait_loop fuel' rx (u32 (timer + 1)) h
  end.

(** [luminox_wait_for_response]: [timer] starts at 0 and the loop is left at
    the latest when it has reached [RESPONSE_TIMEOUT]. *)
Definition luminox_wait_for_response (rx : Z -> bool) (h : luminox_handler_t)
  : outcome (Z * luminox_handler_t * bool) :=
  wait_loop (S (Z.to_nat RESPONSE_TIMEOUT)) rx 0 h.

(** The six requests without an argument. *)
Definition measurement_requests : list (M driver_state Z) :=
  [luminox_request_ppO2; luminox_request_O2; luminox_request_temp;
   luminox_request_barometric_pressure; luminox_request_sensor_status;
   luminox_request_all].

End Driver.

(** ** A reference instance: decimal [atof] and a simulated sensor

    Used for the worked examples.  [atof_decimal] covers the texts the sensor
    sends (blanks, a sign, digits, a point, digits) and yields the exact
    decimal value; any other text stops the conversion, as in C, so a field
    of dashes gives 0.  Exponents, hexadecimal input and the rounding to a
    binary [float] are outside it. *)

Definition is_digit (b : Z) : bool := (0x30 <=? b) && (b <=? 0x39).

Definition is_space (b : Z) : bool := (b =? 0x20) || ((9 <=? b) && (b <=? 13)).

Fixpoint skip_space (s : list Z) : list Z :=
  match s with
  | b :: s' => if is_space b then skip_space s' else s
  | [] => []
  end.

Fixpoint read_digits (s : list Z) (acc : Z) (n : nat) : Z * nat * list Z :=
  match s with
  | b :: s' =>
      if is_digit b then read_digits s' (10 * acc + (b - 0x30)) (S n)
      else (acc, n, s)
  | [] => (acc, n, [])
  end.

Definition atof_decimal (text : list Z) : Q :=
  let s := skip_space text in
  let '(neg, s) :=
    match s with
    | b :: s' => if b =? 0x2D then (true, s')
                 else if b =? 0x2B then (false, s') else (false, s)
    | [] => (false, [])
    end in
  let '(ip, _, s) := read_digits s 0 0 in
  let '(m, k) :=
    match s with
    | b :: s' => if b =? 0x2E
                 then let '(m, k, _) := read_digits s' ip 0 in (m, k)
                 else (ip, 0%nat)
    | [] => (ip, 0%nat)
    end in
  let v := Qred (Qmake m (Z.to_pos (10 ^ Z.of_nat k))) in
  if neg then Qopp v else v.

(** What may lie behind the local arrays: a NUL byte, which ends every
    number; the digit ['5']; and, behind the temperature field of the
    composite reply (copied from index 11), the text ["020.95"] that a
    decode of that reply has copied into [o2_data] before. *)
Definition clean_stack : Z -> list Z := fun _ => [0].

Definition digit_behind : Z -> list Z := fun _ => [0x35; 0].

Definition stale_o2_behind : Z -> list Z :=
  fun i => if i =? 11 then [0x30; 0x32; 0x30; 0x2E; 0x39; 0x35; 0] else [0].

Definition clean_stack_of {W : Type} (w : W) : Z -> list Z := clean_stack.

(** ASCII text as bytes. *)
Definition ascii_bytes (s : string) : list Z :=
  map (fun c => Z.of_N (N_of_ascii c)) (list_ascii_of_string s).

Definition CRLF : list Z := [0x0D; 0x0A].

(** A receive buffer holding [frame] at its start, zero elsewhere. *)
Definition buffer_of (frame : list Z) : list Z :=
  frame ++ replicate (UART_RX_BUF_SIZE - length frame) 0.

(** A handler as [luminox_init] leaves it. *)
Definition fresh_handler : luminox_handler_t :=
  mk_handler LUMINOX_MODE_DEFAULT 0%Q 0%Q 0%Q 0%Q
    (replicate UART_RX_BUF_SIZE 0) LUMINOX_SUCCESS.

(** A handler with cached readings and the buffer holding [frame]. *)
Definition sample_handler (frame : list Z) : luminox_handler_t :=
  mk_handler LUMINOX_MODE_POLLING (2134 # 10)%Q (2095 # 100)%Q (245 # 10)%Q
    1013%Q (buffer_of frame) LUMINOX_ERR_TIMEOUT.

(** The simulated sensor answers the commands of the data sheet as the
    source documents them; its state is its output mode.  Anything it does
    not recognise is answered with the error frame ["E 01"]. *)
Definition sensor_reply (frame : list Z) (w : Z) : Z * list Z :=
  match frame with
  | c :: rest =>
      if c =? MODE_OUTPUT then
        match rest !! 1%nat with
        | Some d => (d - 0x30, ascii_bytes "M 0" ++ d :: CRLF)
        | None => (w, ascii_bytes "E 02" ++ CRLF)
        end
      else if c =? PPO2 then (w, ascii_bytes "O 0213.4" ++ CRLF)
      else if c =? O2 then (w, ascii_bytes "% 020.95" ++ CRLF)
      else if c =? TEMPERATURE then (w, ascii_bytes "T +24.5" ++ CRLF)
      else if c =? BAROMETRIC_PRESSURE then (w, ascii_bytes "P 1013" ++ CRLF)
      else if c =? SENSOR_STATUS then (w, ascii_bytes "e 0000" ++ CRLF)
      else if c =? ALL then
        (w, ascii_bytes "O 0213.4 T +24.5 P 1013 % 020.95 e 0000" ++ CRLF)
      else if c =? SENSOR_INFORMATION then (w, ascii_bytes "# 00012 00345" ++ CRLF)
      else (w, ascii_bytes "E 01" ++ CRLF)
  | [] => (w, ascii_bytes "E 01" ++ CRLF)
  end.

Definition sensor_tx (request : list Z) (size : Z) (w : Z)
  : Z * list (list Z * Z) :=
  let '(w', r) := sensor_reply (take (Z.to_nat size) request) w in
  (w', [(r, Z.of_nat (length r))]).

(** The reply to the composite request and its fields. *)
Definition all_frame : list Z :=
  ascii_bytes "O 0213.4 T +24.5 P 1013 % 020.95 e 0000" ++ CRLF.

Definition all_fields : list field :=
  [F_ppO2 (ascii_bytes "0213.4"); F_other SEPARATOR;
   F_temp (ascii_bytes "+24.5"); F_other SEPARATOR;
   F_pressure (ascii_bytes "1013"); F_other SEPARATOR;
   F_O2 (ascii_bytes "020.95"); F_other SEPARATOR]
  ++ map F_other (ascii_bytes "e 0000") ++ [F_other 0x0D].

(** Frames cut short: a mode echo and a ppO2 tag directly followed by the
    line feed.  [mode_cut_1] and [mode_cut_2] are the same frame followed by
    different bytes in the buffer. *)
Definition mode_cut_1 : list Z := [MODE_OUTPUT; TERMINATOR; 0x20; 0x31].
Definition mode_cut_2 : list Z := [MODE_OUTPUT; TERMINATOR; 0x20; 0x32].
Definition ppO2_cut : list Z := [PPO2; TERMINATOR].

(** Two test transports: one that never delivers a reply and one that
    answers every command with the same reply. *)
Definition silent_tx (request : list Z) (size : Z) (w : unit)
  : unit * list (list Z * Z) := (w, []).

Definition fixed_reply_tx (r : list Z) (request : list Z) (size : Z) (w : unit)
  : unit * list (list Z * Z) := (w, [(r, Z.of_nat (length r))]).

Definition fresh_state : driver_state :=
  mk_state fresh_handler LUMINOX_MODE_STREAMING [].

(** ** Properties of the decoder *)

Section DecoderProofs.

Context {float : Type}.
Variable atof : list Z -> float.
Variable behind : Z -> list Z.

Local Abbreviation handler_t := (@luminox_handler_t float).
Local Abbreviation decode := (luminox_process_response atof behind).
Local Abbreviation decode_loop := (process_loop atof behind).
Local Abbreviation decode_step := (loop_step atof behind).

Lemma u16_small (z : Z) : 0 <= z < 65536 -> u16 z = z.
Proof. intros Hz. unfold u16. apply Z.mod_small. exact Hz. Qed.

(** Removes the wrap-around where the index provably stays in range. *)
Ltac u16_norm :=
  repeat match goal with
         | |- context [u16 ?z] => rewrite (u16_small z) by lia
         end.

Lemma read_ext (g h : handler_t) (i : Z) :
  luminox_data g = luminox_data h -> read g i = read h i.
Proof. intros E. unfold read. rewrite E. reflexivity. Qed.

Lemma memcpy_from_ext (g h : handler_t) (i : Z) (n : nat) :
  luminox_data g = luminox_data h -> memcpy_from g i n = memcpy_from h i n.
Proof. intros E. unfold memcpy_from. rewrite E. reflexivity. Qed.

Lemma luminox_error_handler_ext (g h : handler_t) :
  luminox_data g = luminox_data h ->
  luminox_error_handler g = luminox_error_handler h.
Proof.
  intros E. unfold luminox_error_handler. rewrite (read_ext g h 3 E). reflexivity.
Qed.

Lemma read_Some_bound (h : handler_t) (i c : Z) :
  read h i = Some c -> 0 <= i /\ (Z.to_nat i < length (luminox_data h))%nat.
Proof.
  unfold read. destruct (i <? 0) eqn:Hi; [discriminate|].
  intros Hc. apply Z.ltb_ge in Hi. split; [exact Hi|].
  eapply lookup_lt_Some. exact Hc.
Qed.

(** Case analysis of one iteration, following the [switch] top to bottom. *)
Ltac case_tag c t := destruct (c =? t) eqn:?.

Ltac step_split h i :=
  let c := fresh "c" in
  destruct (read h i) as [c|] eqn:?;
  [ case_tag c TERMINATOR;
    [ | case_tag c ERROR_RESPONSE;
        [ destruct (luminox_error_handler h) eqn:?
        | case_tag c MODE_OUTPUT;
          [ destruct (read h (i + 3)) eqn:?
          | case_tag c PPO2;
            [ destruct (memcpy_from h (u16 (i + 2)) 6) eqn:?
            | case_tag c O2;
              [ destruct (memcpy_from h (u16 (i + 2)) 6) eqn:?
              | case_tag c TEMPERATURE;
                [ destruct (memcpy_from h (u16 (i + 2)) 5) eqn:?
                | case_tag c BAROMETRIC_PRESSURE;
                  [ destruct (memcpy_from h (u16 (i + 2)) 4) eqn:?
                  | case_tag c SEPARATOR;
                    [ | case_tag c SENSOR_STATUS;
                        [ | case_tag c SENSOR_INFORMATION ] ] ] ] ] ] ] ] ]
  | ].

Ltac step_cases h i := unfold loop_step; cbv zeta; step_split h i.

(** The decoder never writes the receive buffer. *)
Lemma loop_step_data (h : handler_t) (i : Z) :
  match decode_step h i with
  | Break h' => luminox_data h' = luminox_data h
  | Continue h' _ => luminox_data h' = luminox_data h
  | Fault => True
  end.
Proof.
  step_cases h i; try exact I; try reflexivity.
  repeat match goal with |- context [if ?b then _ else _] => destruct b end;
    reflexivity.
Qed.

Lemma process_loop_data (fuel : nat) :
  forall (h h' : handler_t) (i : Z),
    decode_loop fuel h i = Done h' -> luminox_data h' = luminox_data h.
Proof.
  induction fuel as [|fuel IH]; intros h h' i; [discriminate|].
  simpl. pose proof (loop_step_data h i) as Hs.
  destruct (decode_step h i) as [h1|h1 i1|]; intros H; try discriminate.
  - injection H as <-. exact Hs.
  - apply IH in H. congruence.
Qed.

Lemma process_response_data (h h' : handler_t) :
  decode h = Done h' -> luminox_data h' = luminox_data h.
Proof.
  unfold luminox_process_response.
  destruct (decode_loop _ h 0) as [h1| |] eqn:E; try discriminate.
  intros H. injection H as <-. simpl. eapply process_loop_data. exact E.
Qed.

Lemma process_response_wf (h h' : handler_t) :
  decode h = Done h' -> wf_handler h -> wf_handler h'.
Proof.
  intros H. unfold wf_handler. rewrite (process_response_data h h' H). tauto.
Qed.

(** An iteration that goes on has read inside the buffer and moves the
    index forward. *)
Lemma loop_step_index (h h' : handler_t) (i i' : Z) :
  Z.of_nat (length (luminox_data h)) < 65000 ->
  decode_step h i = Continue h' i' ->
  0 <= i < Z.of_nat (length (luminox_data h)) /\ i < i'.
Proof.
  intros Hlen. step_cases h i; intros H; try discriminate;
    match goal with
    | Hr : read h i = Some _ |- _ => apply read_Some_bound in Hr as [? ?]
    end;
    injection H as _ <-; (split; [lia|]); u16_norm; lia.
Qed.

(** The index grows at every iteration and a read past the buffer ends the
    run, so the loop cannot use up its fuel on a buffer shorter than the
    range of the [uint16_t] index. *)
Lemma process_loop_fuel (fuel : nat) :
  forall (h : handler_t) (i : Z),
    Z.of_nat (length (luminox_data h)) < 65000 ->
    0 <= i ->
    (1 <= fuel)%nat ->
    (length (luminox_data h) + 1 <= fuel + Z.to_nat i)%nat ->
    decode_loop fuel h i <> OutOfFuel.
Proof.
  induction fuel as [|fuel IH]; intros h i Hlen Hi Hfuel Hsum; [lia|].
  simpl. pose proof (loop_step_data h i) as Hd.
  destruct (decode_step h i) as [h1|h1 i1|] eqn:Hs; try discriminate.
  apply loop_step_index in Hs as [Hin Hlt]; [|exact Hlen].
  apply IH; rewrite ?Hd; lia.
Qed.

Lemma process_response_fuel (h : handler_t) :
  wf_handler h -> decode h <> OutOfFuel.
Proof.
  intros Hwf. unfold luminox_process_response.
  destruct (decode_loop _ h 0) eqn:E; try discriminate.
  exfalso. revert E. unfold wf_handler, UART_RX_BUF_SIZE in Hwf.
  apply process_loop_fuel; rewrite ?Hwf; lia.
Qed.

(** *** Replaying a run over the same buffer *)

Lemma same_write_compose {A : Type} (a a1 a' b b1 b' : A) :
  (a1 = a /\ b1 = b) \/ b1 = a1 ->
  (a' = a1 /\ b' = b1) \/ b' = a' ->
  (a' = a /\ b' = b) \/ b' = a'.
Proof. intros [[-> ->]| ->] [[-> ->]| ->]; auto. Qed.

Lemma same_writes_refl (h g : handler_t) : same_writes h h g g.
Proof. unfold same_writes. tauto. Qed.

Lemma same_writes_compose (h h1 h' g g1 g' : handler_t) :
  same_writes h h1 g g1 -> same_writes h1 h' g1 g' -> same_writes h h' g g'.
Proof.
  intros (D1 & M1 & P1 & O1 & T1 & B1) (D2 & M2 & P2 & O2 & T2 & B2).
  unfold same_writes. split; [congruence|].
  repeat split; eapply same_write_compose; eassumption.
Qed.

Lemma loop_step_replay (h g : handler_t) (i : Z) :
  luminox_data g = luminox_data h ->
  match decode_step h i with
  | Break h' => exists g', decode_step g i = Break g' /\ same_writes h h' g g'
  | Continue h' i' =>
      exists g', decode_step g i = Continue g' i' /\ same_writes h h' g g'
  | Fault => decode_step g i = Fault
  end.
Proof.
  intros E. unfold loop_step. cbv zeta.
  rewrite (luminox_error_handler_ext g h E), !(read_ext g h _ E),
    !(memcpy_from_ext g h _ _ E).
  step_split h i; try reflexivity;
    try (eexists; split; [reflexivity|]; unfold same_writes; simpl; tauto).
  repeat match goal with |- context [if ?b then _ else _] => destruct b end;
    (eexists; split; [reflexivity|]; unfold same_writes; simpl; tauto).
Qed.

Lemma process_loop_replay (fuel : nat) :
  forall (h h' g : handler_t) (i : Z),
    decode_loop fuel h i = Done h' ->
    luminox_data g = luminox_data h ->
    exists g', decode_loop fuel g i = Done g' /\ same_writes h h' g g'.
Proof.
  induction fuel as [|fuel IH]; intros h h' g i; [discriminate|].
  intros H E. simpl in H |- *.
  pose proof (loop_step_replay h g i E) as Hr.
  pose proof (loop_step_data h i) as Hd.
  destruct (decode_step h i) as [h1|h1 i1|]; try discriminate.
  - injection H as <-. destruct Hr as (g' & -> & Hw). eauto.
  - destruct Hr as (g1 & -> & Hw).
    destruct (IH _ _ g1 _ H) as (g' & Hg & Hw').
    { destruct Hw as [-> _]. congruence. }
    exists g'. split; [exact Hg|]. eapply same_writes_compose; eassumption.
Qed.

(** Decoding again from the state the first run reached changes nothing,
    provided the second run meets the same bytes behind the local arrays. *)
Lemma process_response_again (h h1 : handler_t) :
  decode h = Done h1 -> decode h1 = Done h1.
Proof.
  intros H. pose proof (process_response_data h h1 H) as Hd.
  unfold luminox_process_response in *. rewrite Hd.
  destruct (decode_loop _ h 0) as [h'| |] eqn:E; try discriminate.
  injection H as <-.
  destruct (process_loop_replay _ h h' (set_err_code LUMINOX_SUCCESS h') 0 E)
    as (g' & Hg & Hw).
  { simpl. eapply process_loop_data. exact E. }
  rewrite Hg. f_equal.
  destruct Hw as (D & M & P & O & T & B). destruct g', h'. simpl in *.
  unfold set_err_code. simpl. f_equal; tauto.
Qed.

(** *** Frames made of full-length fields *)

Lemma read_middle (h : handler_t) (pre rest : list Z) (c : Z) :
  luminox_data h = pre ++ c :: rest ->
  read h (Z.of_nat (length pre)) = Some c.
Proof.
  intros E. unfold read.
  destruct (Z.of_nat (length pre) <? 0) eqn:Hneg; [apply Z.ltb_lt in Hneg; lia|].
  rewrite E, Nat2Z.id. apply list_lookup_middle. reflexivity.
Qed.

Lemma memcpy_from_middle (h : handler_t) (pre d rest : list Z) (i : Z) (n : nat) :
  luminox_data h = pre ++ d ++ rest ->
  i = Z.of_nat (length pre) ->
  length d = n ->
  memcpy_from h i n = Some d.
Proof.
  intros E -> Hn. unfold memcpy_from.
  destruct (Z.of_nat (length pre) <? 0) eqn:Hneg; [apply Z.ltb_lt in Hneg; lia|].
  rewrite E, Nat2Z.id, drop_app_length, <- Hn, take_app_length.
  rewrite Nat.eqb_refl. reflexivity.
Qed.

Lemma loop_step_terminator (h : handler_t) (pre rest : list Z) :
  luminox_data h = pre ++ TERMINATOR :: rest ->
  decode_step h (Z.of_nat (length pre)) = Break h.
Proof.
  intros E. unfold loop_step. rewrite (read_middle h pre rest _ E). reflexivity.
Qed.

Lemma memcpy_from_field (h : handler_t) (pre rest d : list Z) (t : Z) (n : nat) :
  luminox_data h = pre ++ t :: SEPARATOR :: d ++ rest ->
  length d = n ->
  Z.of_nat (length (luminox_data h)) < 65000 ->
  memcpy_from h (u16 (Z.of_nat (length pre) + 2)) n = Some d.
Proof.
  intros E Hn Hlen.
  assert (Hb : Z.of_nat (length pre) + 2 < 65000).
  { rewrite E, length_app in Hlen. simpl length in Hlen. lia. }
  apply memcpy_from_middle with (pre := pre ++ [t; SEPARATOR]) (rest := rest).
  - rewrite <- app_assoc. exact E.
  - rewrite length_app. simpl length. u16_norm. lia.
  - exact Hn.
Qed.

Lemma loop_step_field (h : handler_t) (pre rest : list Z) (f : field) :
  field_ok f = true ->
  luminox_data h = pre ++ field_bytes f ++ rest ->
  Z.of_nat (length (luminox_data h)) < 65000 ->
  decode_step h (Z.of_nat (length pre)) =
  Continue (apply_field atof behind (Z.of_nat (length pre)) h f)
    (Z.of_nat (length pre) + Z.of_nat (length (field_bytes f))).
Proof.
  intros Hok E Hlen.
  assert (Hpre : Z.of_nat (length pre) + Z.of_nat (length (field_bytes f)) < 65000).
  { rewrite E, !length_app in Hlen. lia. }
  unfold loop_step.
  destruct f as [d|d|d|d|b]; simpl in Hok, E, Hpre |- *;
    rewrite (read_middle h pre _ _ E); cbv zeta.
  1-4: apply Nat.eqb_eq in Hok;
       rewrite (memcpy_from_field h pre rest d _ _ E Hok Hlen);
       simpl; rewrite (u16_small (Z.of_nat (length pre) + 2)) by lia;
       f_equal; u16_norm; lia.
  apply negb_true_iff in Hok.
  repeat (apply orb_false_elim in Hok as [Hok ?]).
  repeat match goal with H : (b =? _) = false |- _ => rewrite H; clear H end.
  repeat match goal with |- context [if ?c then _ else _] => destruct c end;
    f_equal; u16_norm; lia.
Qed.

Lemma length_flat_map_fields (fs : list field) :
  (length fs <= length (flat_map field_bytes fs))%nat.
Proof.
  induction fs as [|f fs IH]; simpl; [lia|].
  rewrite length_app. destruct f; simpl; lia.
Qed.

Lemma process_loop_fields (fs : list field) :
  forall (pre rest : list Z) (fuel : nat) (h : handler_t),
    Forall (fun f => field_ok f = true) fs ->
    luminox_data h = pre ++ frame_bytes fs ++ rest ->
    Z.of_nat (length (luminox_data h)) < 65000 ->
    (length fs < fuel)%nat ->
    decode_loop fuel h (Z.of_nat (length pre))
    = Done (apply_fields atof behind (Z.of_nat (length pre)) h fs).
Proof.
  induction fs as [|f fs IH]; intros pre rest fuel h Hok E Hlen Hfuel;
    (destruct fuel as [|fuel]; [simpl in Hfuel; lia|]); simpl.
  - unfold frame_bytes in E. simpl in E.
    rewrite (loop_step_terminator h pre rest E). reflexivity.
  - inversion Hok as [|? ? Hf Hfs]; subst.
    assert (E' : luminox_data h = pre ++ field_bytes f ++ (frame_bytes fs ++ rest)).
    { rewrite E. unfold frame_bytes. simpl. rewrite <- !app_assoc. reflexivity. }
    rewrite (loop_step_field h pre _ f Hf E' Hlen).
    rewrite <- Nat2Z.inj_add, <- length_app.
    apply IH with (rest := rest).
    + exact Hfs.
    + destruct f; simpl; rewrite E'; rewrite <- ?app_assoc; reflexivity.
    + destruct f; simpl; exact Hlen.
    + simpl in Hfuel. lia.
Qed.

Lemma apply_field_kept (i : Z) (h : handler_t) (f : field) :
  luminox_data (apply_field atof behind i h f) = luminox_data h /\
  current_mode (apply_field atof behind i h f) = current_mode h /\
  err_code (apply_field atof behind i h f) = err_code h.
Proof. destruct f; simpl; tauto. Qed.

Lemma apply_fields_kept (fs : list field) :
  forall (i : Z) (h : handler_t),
    luminox_data (apply_fields atof behind i h fs) = luminox_data h /\
    current_mode (apply_fields atof behind i h fs) = current_mode h /\
    err_code (apply_fields atof behind i h fs) = err_code h.
Proof.
  induction fs as [|f fs IH]; intros i h; simpl; [tauto|].
  destruct (IH (i + Z.of_nat (length (field_bytes f))) (apply_field atof behind i h f))
    as (D & Mo & Er).
  destruct (apply_field_kept i h f) as (D' & Mo' & Er').
  rewrite D, Mo, Er. tauto.
Qed.

(** *** The claims about the decoder *)

Lemma read_in_buffer (h : handler_t) (i : Z) :
  wf_handler h -> 0 <= i < Z.of_nat UART_RX_BUF_SIZE -> exists b, read h i = Some b.
Proof.
  intros Hwf Hi. unfold read.
  destruct (i <? 0) eqn:Hneg; [apply Z.ltb_lt in Hneg; lia|].
  apply lookup_lt_is_Some_2. rewrite Hwf. lia.
Qed.

Lemma luminox_error_handler_total (h : handler_t) :
  wf_handler h -> exists e, luminox_error_handler h = Some e.
Proof.
  intros Hwf. unfold luminox_error_handler.
  destruct (read_in_buffer h 3 Hwf) as [b ->]; [unfold UART_RX_BUF_SIZE; lia|].
  eauto.
Qed.

(** The classification of the fault digit, on its own. *)
Lemma luminox_error_handler_classifies (h : handler_t) (b : Z) :
  read h 3 = Some b ->
  luminox_error_handler h =
  Some (if b =? 0x30 then LUMINOX_ERR_RX_OVERFLOW
        else if b =? 0x31 then LUMINOX_ERR_INVALID_CMD
        else if b =? 0x32 then LUMINOX_ERR_INVALID_FRAME
        else if b =? 0x33 then LUMINOX_ERR_INVALID_ARG
        else LUMINOX_ERROR).
Proof. intros Hb. unfold luminox_error_handler. rewrite Hb. reflexivity. Qed.

Lemma process_response_error_frame (h : handler_t) :
  wf_handler h ->
  read h 0 = Some ERROR_RESPONSE ->
  decode h = Done (set_err_code LUMINOX_SUCCESS h).
Proof.
  intros Hwf H0. unfold luminox_process_response. cbn [process_loop].
  unfold loop_step. rewrite H0.
  destruct (luminox_error_handler_total h Hwf) as [e ->]. reflexivity.
Qed.

Lemma fields_frame_decodes (fs : list field) (rest : list Z) (h : handler_t) :
  wf_handler h ->
  Forall (fun f => field_ok f = true) fs ->
  luminox_data h = frame_bytes fs ++ rest ->
  decode h = Done (set_err_code LUMINOX_SUCCESS (apply_fields atof behind 0 h fs)).
Proof.
  intros Hwf Hok E. unfold luminox_process_response.
  rewrite (process_loop_fields fs [] rest _ h Hok E); [reflexivity| |].
  - unfold wf_handler, UART_RX_BUF_SIZE in Hwf. rewrite Hwf. lia.
  - pose proof (length_flat_map_fields fs) as Hl.
    rewrite E. unfold frame_bytes. rewrite !length_app. lia.
Qed.


(** C3 (as amended).  The decoder relies on every field having its full
    length.  On a buffer that starts with a frame of full-length fields
    (["O xxxx.x"], ["% xxx.xx"], ["T yxx.x"], ["P xxxx"], other bytes that
    are no tag with an effect) closed by a line feed, decode returns with
    [LUMINOX_SUCCESS], whatever follows the line feed in the buffer and
    whatever lies behind the local arrays; it leaves the buffer and the mode
    as they were. *)
Theorem full_length_frame_decodes (fs : list field) (rest : list Z) (h : handler_t) :
  wf_handler h ->
  Forall (fun f => field_ok f = true) fs ->
  luminox_data h = frame_bytes fs ++ rest ->
  exists h',
    luminox_process_response atof behind h = Done h' /\
    err_code h' = LUMINOX_SUCCESS /\
    luminox_data h' = luminox_data h /\
    current_mode h' = current_mode h.
Proof.
  intros Hwf Hok E. eexists. split.
  - apply (fields_frame_decodes fs rest h Hwf Hok E).
  - destruct (apply_fields_kept fs 0 h) as (D & Mo & _). simpl. tauto.
Qed.

Lemma process_response_success (h h' : handler_t) :
  decode h = Done h' -> err_code h' = LUMINOX_SUCCESS.
Proof.
  unfold luminox_process_response.
  destruct (decode_loop _ h 0); intros H; try discriminate.
  injection H as <-. reflexivity.
Qed.

(** C4.  Whenever [luminox_process_response] returns, the handler holds
    [err_code = LUMINOX_SUCCESS], whatever the frame was: the assignment
    after [EndWhile] overwrites the code stored for an error frame. *)
Theorem process_response_ends_with_success (h h' : handler_t) :
  luminox_process_response atof behind h = Done h' -> err_code h' = LUMINOX_SUCCESS.
Proof. apply process_response_success. Qed.

(** C5.  On a buffer whose first byte is the error tag ['E'], decode returns
    and leaves the mode, the four cached measurements and the buffer as they
    were. *)
Theorem error_frame_keeps_cached_values (h : handler_t) :
  wf_handler h ->
  read h 0 = Some ERROR_RESPONSE ->
  exists h',
    luminox_process_response atof behind h = Done h' /\
    current_ppO2 h' = current_ppO2 h /\
    current_O2 h' = current_O2 h /\
    current_temp h' = current_temp h /\
    current_barometric_pressure h' = current_barometric_pressure h /\
    current_mode h' = current_mode h /\
    luminox_data h' = luminox_data h.
Proof.
  intros Hwf H0. exists (set_err_code LUMINOX_SUCCESS h).
  split; [apply process_response_error_frame; assumption|].
  simpl. tauto.
Qed.

(** What decoding a ppO2 frame caches: [atof] of the six bytes of the field
    followed by what lies behind [ppo2_data]. *)
Lemma process_response_ppO2_frame (h : handler_t) (d rest : list Z) :
  wf_handler h ->
  length d = 6%nat ->
  luminox_data h = PPO2 :: SEPARATOR :: d ++ [0x0D; TERMINATOR] ++ rest ->
  decode h
  = Done (set_err_code LUMINOX_SUCCESS
            (set_current_ppO2 (atof (d ++ behind 2)) h)).
Proof.
  intros Hwf Hd E.
  rewrite (fields_frame_decodes [F_ppO2 d; F_other 0x0D] rest h Hwf).
  - reflexivity.
  - repeat constructor. simpl. rewrite Hd. reflexivity.
  - rewrite E. unfold frame_bytes. simpl. rewrite <- !app_assoc.
    reflexivity.
Qed.

(** *** Further properties of the decoder *)

Lemma read_elem (h : handler_t) (i c : Z) :
  read h i = Some c -> c ∈ luminox_data h.
Proof.
  unfold read. destruct (i <? 0); [discriminate|].
  intros H. eapply list_elem_of_lookup_2. exact H.
Qed.

Lemma loop_step_untagged (h : handler_t) (i : Z) :
  match decode_step h i with
  | Break h' => untagged_kept h h'
  | Continue h' _ => untagged_kept h h'
  | Fault => True
  end.
Proof.
  step_cases h i; try exact I;
    match goal with
    | Hr : read h i = Some _ |- _ => apply read_elem in Hr
    end;
    repeat match goal with
           | H : (_ =? _) = true |- _ => apply Z.eqb_eq in H; subst
           end;
    unfold untagged_kept; simpl;
    repeat match goal with |- context [if ?b then _ else _] => destruct b end;
    simpl; repeat split; intros Hn; try reflexivity; contradiction.
Qed.

Lemma process_loop_untagged (fuel : nat) :
  forall (h h' : handler_t) (i : Z),
    decode_loop fuel h i = Done h' -> untagged_kept h h'.
Proof.
  induction fuel as [|fuel IH]; intros h h' i; [discriminate|].
  simpl. pose proof (loop_step_untagged h i) as Hs.
  pose proof (loop_step_data h i) as Hd.
  destruct (decode_step h i) as [h1|h1 i1|]; intros H; try discriminate.
  - injection H as <-. exact Hs.
  - apply IH in H. unfold untagged_kept in *. rewrite Hd in H.
    destruct Hs as (P1 & O1 & T1 & B1 & M1), H as (P2 & O2' & T2 & B2 & M2).
    repeat split; intros Hn.
    + rewrite (P2 Hn). exact (P1 Hn).
    + rewrite (O2' Hn). exact (O1 Hn).
    + rewrite (T2 Hn). exact (T1 Hn).
    + rewrite (B2 Hn). exact (B1 Hn).
    + rewrite (M2 Hn). exact (M1 Hn).
Qed.

Lemma decode_untagged_kept (h h' : handler_t) :
  decode h = Done h' -> untagged_kept h h'.
Proof.
  unfold luminox_process_response.
  destruct (decode_loop _ h 0) as [h1| |] eqn:E; intros H; try discriminate.
  injection H as <-. apply process_loop_untagged in E. exact E.
Qed.

(** X4.  Whatever the buffer holds, a decode that returns has changed a
    cached measurement only if its tag byte occurs somewhere in the buffer,
    and the mode only if the byte ['M'] occurs. *)
Theorem decode_writes_only_tagged_fields (h h' : handler_t) :
  luminox_process_response atof behind h = Done h' ->
  (PPO2 ∉ luminox_data h -> current_ppO2 h' = current_ppO2 h) /\
  (O2 ∉ luminox_data h -> current_O2 h' = current_O2 h) /\
  (TEMPERATURE ∉ luminox_data h -> current_temp h' = current_temp h) /\
  (BAROMETRIC_PRESSURE ∉ luminox_data h ->
   current_barometric_pressure h' = current_barometric_pressure h) /\
  (MODE_OUTPUT ∉ luminox_data h -> current_mode h' = current_mode h).
Proof.
  unfold luminox_process_response.
  destruct (decode_loop _ h 0) as [h1| |] eqn:E; intros H; try discriminate.
  injection H as <-. apply process_loop_untagged in E. exact E.
Qed.

(** X2.  The decoder reads the receive buffer and never writes it. *)
Theorem decode_keeps_buffer (h h' : handler_t) :
  luminox_process_response atof behind h = Done h' ->
  luminox_data h' = luminox_data h /\ (wf_handler h -> wf_handler h').
Proof.
  intros H. split; [exact (process_response_data h h' H)|].
  exact (process_response_wf h h' H).
Qed.

Lemma loop_step_no_break (h h' : handler_t) (i : Z) :
  no_stop_byte h -> decode_step h i <> Break h'.
Proof.
  intros Hno. step_cases h i; try discriminate;
    match goal with
    | Hr : read h i = Some _ |- _ => apply read_elem, Hno in Hr as (? & ? & ?)
    end;
    repeat match goal with
           | H : (_ =? _) = true |- _ => apply Z.eqb_eq in H
           end; contradiction.
Qed.

Lemma process_loop_no_stop (fuel : nat) :
  forall (h h' : handler_t) (i : Z),
    no_stop_byte h -> decode_loop fuel h i <> Done h'.
Proof.
  induction fuel as [|fuel IH]; intros h h' i Hno; [discriminate|].
  simpl. pose proof (loop_step_no_break h h' i Hno) as Hb.
  pose proof (loop_step_data h i) as Hd.
  destruct (decode_step h i) as [h1|h1 i1|]; try discriminate.
  - intros H. injection H as ->. contradiction.
  - apply IH. unfold no_stop_byte. rewrite Hd. exact Hno.
Qed.

(** X3.  The scan is stopped by a line feed, an ['E'] or an ['M'] only: on a
    128-byte buffer that holds none of these bytes the decoder reads past
    the end of the buffer. *)
Theorem decode_without_stop_byte_overruns (h : handler_t) :
  wf_handler h ->
  (forall b, b ∈ luminox_data h ->
     b <> TERMINATOR /\ b <> ERROR_RESPONSE /\ b <> MODE_OUTPUT) ->
  luminox_process_response atof behind h = OutOfBounds.
Proof.
  intros Hwf Hno. pose proof (process_response_fuel h Hwf) as Hfuel.
  unfold luminox_process_response in *.
  destruct (decode_loop _ h 0) as [h1| |] eqn:E; [|reflexivity|contradiction].
  exfalso. exact (process_loop_no_stop _ _ _ _ Hno E).
Qed.

(** X1.  A buffer that starts with the mode tag ['M']: the byte at index 3
    selects the mode (['0'] streaming, ['1'] polling, ['2'] off, anything
    else leaves the mode as it was), nothing else but [err_code] is written
    and the rest of the buffer is not looked at. *)
Theorem mode_echo_sets_mode (h : handler_t) (d : Z) :
  read h 0 = Some MODE_OUTPUT ->
  read h 3 = Some d ->
  luminox_process_response atof behind h
  = Done (set_err_code LUMINOX_SUCCESS
            (if d =? 0x30 then set_current_mode LUMINOX_MODE_STREAMING h
             else if d =? 0x31 then set_current_mode LUMINOX_MODE_POLLING h
             else if d =? 0x32 then set_current_mode LUMINOX_MODE_OFF h
             else h)).
Proof.
  intros H0 H3. unfold luminox_process_response. cbn [process_loop].
  unfold loop_step. rewrite H0. change (0 + 3) with 3. rewrite H3. reflexivity.
Qed.

(** Decoding a run of full-length fields brings the loop to the byte that
    follows them. *)
Lemma process_loop_fields_prefix (fs : list field) :
  forall (pre rest : list Z) (fuel : nat) (h : handler_t),
    Forall (fun f => field_ok f = true) fs ->
    luminox_data h = pre ++ flat_map field_bytes fs ++ rest ->
    Z.of_nat (length (luminox_data h)) < 65000 ->
    decode_loop (length fs + fuel) h (Z.of_nat (length pre))
    = decode_loop fuel (apply_fields atof behind (Z.of_nat (length pre)) h fs)
        (Z.of_nat (length (pre ++ flat_map field_bytes fs))).
Proof.
  induction fs as [|f fs IH]; intros pre rest fuel h Hok E Hlen.
  - simpl. rewrite app_nil_r. reflexivity.
  - inversion Hok as [|? ? Hf Hfs]; subst.
    assert (E' : luminox_data h
                 = pre ++ field_bytes f ++ (flat_map field_bytes fs ++ rest)).
    { rewrite E. simpl. rewrite <- !app_assoc. reflexivity. }
    cbn [length Nat.add process_loop apply_fields].
    rewrite (loop_step_field h pre _ f Hf E' Hlen).
    rewrite <- Nat2Z.inj_add, <- length_app.
    rewrite (IH (pre ++ field_bytes f) rest fuel
               (apply_field atof behind (Z.of_nat (length pre)) h f) Hfs).
    + simpl. rewrite <- app_assoc. reflexivity.
    + destruct f; simpl; rewrite E'; rewrite <- ?app_assoc; reflexivity.
    + destruct f; simpl; exact Hlen.
Qed.

(** X15.  Fields in front of an error tag are decoded and stay written: on
    a buffer made of full-length fields followed by ['E'], decode returns
    with [err_code = LUMINOX_SUCCESS] and with the fields cached, each as
    [atof] of its bytes followed by what lies behind the local array. *)
Theorem fields_before_error_tag_are_kept (fs : list field) (rest : list Z)
  (h : handler_t) :
  wf_handler h ->
  Forall (fun f => field_ok f = true) fs ->
  luminox_data h = flat_map field_bytes fs ++ ERROR_RESPONSE :: rest ->
  luminox_process_response atof behind h
  = Done (set_err_code LUMINOX_SUCCESS (apply_fields atof behind 0 h fs)).
Proof.
  intros Hwf Hok E. unfold luminox_process_response.
  pose proof (length_flat_map_fields fs) as Hl.
  assert (Hlen : Z.of_nat (length (luminox_data h)) < 65000).
  { unfold wf_handler, UART_RX_BUF_SIZE in Hwf. rewrite Hwf. lia. }
  assert (Hfuel : exists k, S (length (luminox_data h)) = (length fs + S k)%nat).
  { exists (length (luminox_data h) - length fs)%nat.
    rewrite E, length_app. rewrite E, length_app in Hlen. simpl. lia. }
  destruct Hfuel as [k ->].
  pose proof (process_loop_fields_prefix fs [] (ERROR_RESPONSE :: rest) (S k) h
                Hok E Hlen) as Hp.
  change (Z.of_nat (length (@nil Z))) with 0 in Hp. cbn [app] in Hp. rewrite Hp.
  cbn [process_loop].
  destruct (apply_fields_kept fs 0 h) as (Ed & _ & _).
  assert (Hwf' : wf_handler (apply_fields atof behind 0 h fs)).
  { unfold wf_handler. rewrite Ed. exact Hwf. }
  unfold loop_step.
  rewrite (read_middle _ (flat_map field_bytes fs) rest ERROR_RESPONSE)
    by (rewrite Ed; exact E).
  destruct (luminox_error_handler_total _ Hwf') as [e ->].
  simpl. reflexivity.
Qed.

(** X12.  On a 128-byte buffer [luminox_error_handler] always returns one of
    the five fault codes, never [LUMINOX_SUCCESS], and two handlers with the
    same byte at index 3 are classified alike. *)
Theorem error_handler_returns_fault_code (h g : handler_t) :
  wf_handler h ->
  exists e,
    luminox_error_handler h = Some e /\
    (e = LUMINOX_ERR_RX_OVERFLOW \/ e = LUMINOX_ERR_INVALID_CMD \/
     e = LUMINOX_ERR_INVALID_FRAME \/ e = LUMINOX_ERR_INVALID_ARG \/
     e = LUMINOX_ERROR) /\
    e <> LUMINOX_SUCCESS /\
    (read g 3 = read h 3 -> luminox_error_handler g = Some e).
Proof.
  intros Hwf. unfold luminox_error_handler.
  destruct (read_in_buffer h 3 Hwf) as [b Hb]; [unfold UART_RX_BUF_SIZE; lia|].
  rewrite Hb. eexists. split; [reflexivity|].
  split; [|split].
  - repeat match goal with |- context [if ?c then _ else _] => destruct c end;
      repeat (first [left; reflexivity | right]); try reflexivity.
  - repeat match goal with |- context [if ?c then _ else _] => destruct c end;
      discriminate.
  - intros Hg. rewrite Hg. reflexivity.
Qed.


(** *** Two runs that meet different bytes behind the local arrays *)

Lemma same_mode_write_compose (h h1 h' g g1 g' : handler_t) :
  same_mode_write h h1 g g1 -> same_mode_write h1 h' g1 g' ->
  same_mode_write h h' g g'.
Proof.
  intros (D1 & M1) (D2 & M2). unfold same_mode_write.
  split; [congruence|]. eapply same_write_compose; eassumption.
Qed.

Lemma loop_step_replay_mode (behind' : Z -> list Z) (h g : handler_t) (i : Z) :
  luminox_data g = luminox_data h ->
  match decode_step h i with
  | Break h' =>
      exists g', loop_step atof behind' g i = Break g' /\ same_mode_write h h' g g'
  | Continue h' i' =>
      exists g', loop_step atof behind' g i = Continue g' i' /\
                 same_mode_write h h' g g'
  | Fault => loop_step atof behind' g i = Fault
  end.
Proof.
  intros E. unfold loop_step. cbv zeta.
  rewrite (luminox_error_handler_ext g h E), !(read_ext g h _ E),
    !(memcpy_from_ext g h _ _ E).
  step_split h i; try reflexivity;
    try (eexists; split; [reflexivity|]; unfold same_mode_write; simpl; tauto).
  repeat match goal with |- context [if ?b then _ else _] => destruct b end;
    (eexists; split; [reflexivity|]; unfold same_mode_write; simpl; tauto).
Qed.

Lemma process_loop_replay_mode (behind' : Z -> list Z) (fuel : nat) :
  forall (h h' g : handler_t) (i : Z),
    decode_loop fuel h i = Done h' ->
    luminox_data g = luminox_data h ->
    exists g', process_loop atof behind' fuel g i = Done g' /\
               same_mode_write h h' g g'.
Proof.
  induction fuel as [|fuel IH]; intros h h' g i; [discriminate|].
  intros H E. simpl in H |- *.
  pose proof (loop_step_replay_mode behind' h g i E) as Hr.
  pose proof (loop_step_data h i) as Hd.
  destruct (decode_step h i) as [h1|h1 i1|]; try discriminate.
  - injection H as <-. destruct Hr as (g' & -> & Hw). eauto.
  - destruct Hr as (g1 & -> & Hw).
    destruct (IH _ _ g1 _ H) as (g' & Hg & Hw').
    { destruct Hw as [-> _]. congruence. }
    exists g'. split; [exact Hg|]. eapply same_mode_write_compose; eassumption.
Qed.

(** A buffer that was decoded once is decoded again whatever lies behind
    the local arrays the second time; buffer, mode and [err_code] come out
    as the first run left them. *)
Lemma process_response_again_any (behind' : Z -> list Z) (h h1 : handler_t) :
  decode h = Done h1 ->
  exists h2,
    luminox_process_response atof behind' h1 = Done h2 /\
    luminox_data h2 = luminox_data h1 /\
    current_mode h2 = current_mode h1 /\
    err_code h2 = err_code h1.
Proof.
  intros H. pose proof (process_response_data h h1 H) as Hd.
  unfold luminox_process_response in *. rewrite Hd.
  destruct (decode_loop _ h 0) as [h'| |] eqn:E; try discriminate.
  injection H as <-.
  destruct (process_loop_replay_mode behind' _ h h'
              (set_err_code LUMINOX_SUCCESS h') 0 E) as (g' & Hg & D & Mo).
  { simpl. eapply process_loop_data. exact E. }
  rewrite Hg. eexists. split; [reflexivity|]. simpl in *.
  split; [congruence|]. split; [tauto|reflexivity].
Qed.

End DecoderProofs.

(** ** Properties of the operations *)

Section OperationProofs.

Context {float : Type}.
Variable float_zero : float.
Variable atof : list Z -> float.
Context {W : Type}.
Variable luminox_tx : list Z -> Z -> W -> W * list (list Z * Z).
Variable stack_behind : W -> Z -> list Z.

Local Abbreviation handler_t := (@luminox_handler_t float).
Local Abbreviation state_t := (@driver_state float W).
Local Abbreviation request := (transact atof luminox_tx stack_behind).
Local Abbreviation set_ouput_mode := (luminox_set_ouput_mode atof luminox_tx stack_behind).
Local Abbreviation request_sensor_info := (luminox_request_sensor_info atof luminox_tx stack_behind).
Local Abbreviation init := (luminox_init float_zero atof luminox_tx stack_behind).

(** Unfolds the monadic plumbing of an operation. *)
Ltac run_monad :=
  cbv beta iota delta [transact call_luminox_tx process_response_step
    return_err_code get modify mret M_ret mbind M_bind].





(** The frame handed to the transport is logged whatever happens next. *)
Lemma transact_sent (req : list Z) (size : Z) (st : state_t) :
  sent (snd (request req size st)) = sent st ++ [take (Z.to_nat size) req].
Proof.
  run_monad.
  destruct (luminox_tx req size (world st)) as [w' rs].
  destruct (deliver rs (handler st)) as [h1|]; [|reflexivity].
  simpl. destruct (luminox_process_response atof (stack_behind w') h1); reflexivity.
Qed.

(** A request that returns has decoded a reply, so it returns the stored
    [err_code], which is [LUMINOX_SUCCESS]. *)
Lemma transact_returns (req : list Z) (size : Z) (st st' : state_t) (e : Z) :
  request req size st = (Some e, st') ->
  e = err_code (handler st') /\ e = LUMINOX_SUCCESS.
Proof.
  run_monad.
  destruct (luminox_tx req size (world st)) as [w' rs].
  destruct (deliver rs (handler st)) as [h1|]; [|discriminate].
  simpl. destruct (luminox_process_response atof (stack_behind w') h1)
    as [h2| |] eqn:Hd; try discriminate.
  intros H. injection H as <- <-. simpl.
  split; [reflexivity|].
  eapply process_response_success. exact Hd.
Qed.


Lemma mode_msg_valid (mode : Z) :
  valid_mode mode -> exists msg, mode_msg mode = Some msg /\ take 5 msg = mode_command mode.
Proof. intros [-> | [-> | ->]]; eexists; split; reflexivity. Qed.

Lemma mode_msg_invalid (mode : Z) : ~ valid_mode mode -> mode_msg mode = None.
Proof.
  intros Hn. unfold mode_msg.
  destruct (mode =? LUMINOX_MODE_STREAMING) eqn:E0;
    [apply Z.eqb_eq in E0; exfalso; apply Hn; unfold valid_mode; tauto|].
  destruct (mode =? LUMINOX_MODE_POLLING) eqn:E1;
    [apply Z.eqb_eq in E1; exfalso; apply Hn; unfold valid_mode; tauto|].
  destruct (mode =? LUMINOX_MODE_OFF) eqn:E2;
    [apply Z.eqb_eq in E2; exfalso; apply Hn; unfold valid_mode; tauto|].
  reflexivity.
Qed.

Lemma info_req_valid (info : Z) :
  valid_info info -> exists msg, info_req info = Some msg /\ take 5 msg = info_command info.
Proof. intros [-> | [-> | ->]]; eexists; split; reflexivity. Qed.

Lemma info_req_invalid (info : Z) : ~ valid_info info -> info_req info = None.
Proof.
  intros Hn. unfold info_req.
  destruct (info =? LUMINOX_INFO_DATE_OF_MFG) eqn:E0;
    [apply Z.eqb_eq in E0; exfalso; apply Hn; unfold valid_info; tauto|].
  destruct (info =? LUMINOX_INFO_SERIAL_NUM) eqn:E1;
    [apply Z.eqb_eq in E1; exfalso; apply Hn; unfold valid_info; tauto|].
  destruct (info =? LUMINOX_INFO_SW_VER) eqn:E2;
    [apply Z.eqb_eq in E2; exfalso; apply Hn; unfold valid_info; tauto|].
  reflexivity.
Qed.

(** With a valid argument the operations return the stored [err_code]. *)
Lemma set_ouput_mode_returns_stored (mode : Z) (st st' : state_t) (e : Z) :
  valid_mode mode ->
  set_ouput_mode mode st = (Some e, st') ->
  e = err_code (handler st') /\ e = LUMINOX_SUCCESS.
Proof.
  intros Hv. unfold luminox_set_ouput_mode.
  destruct (mode_msg_valid mode Hv) as (msg & -> & _). apply transact_returns.
Qed.

Lemma request_sensor_info_returns_stored (info : Z) (st st' : state_t) (e : Z) :
  valid_info info ->
  request_sensor_info info st = (Some e, st') ->
  e = err_code (handler st') /\ e = LUMINOX_SUCCESS.
Proof.
  intros Hv. unfold luminox_request_sensor_info.
  destruct (info_req_valid info Hv) as (msg & -> & _). apply transact_returns.
Qed.







(** C8.  With a mode outside Streaming, Polling, Off,
    [luminox_set_ouput_mode] returns [LUMINOX_ERR_INVALID_MODE] and leaves
    the whole driver state, transport log included, as it was; likewise
    [luminox_request_sensor_info] with [LUMINOX_ERR_INVALID_INFO].  With a
    valid argument neither code is returned and a frame is transmitted. *)
Theorem invalid_arguments_not_transmitted (mode info : Z) (st : state_t) :
  (~ valid_mode mode ->
     luminox_set_ouput_mode atof luminox_tx stack_behind mode st
     = (Some LUMINOX_ERR_INVALID_MODE, st)) /\
  (~ valid_info info ->
     luminox_request_sensor_info atof luminox_tx stack_behind info st
     = (Some LUMINOX_ERR_INVALID_INFO, st)) /\
  (valid_mode mode ->
     fst (luminox_set_ouput_mode atof luminox_tx stack_behind mode st)
       <> Some LUMINOX_ERR_INVALID_MODE /\
     sent (snd (luminox_set_ouput_mode atof luminox_tx stack_behind mode st)) <> sent st) /\
  (valid_info info ->
     fst (luminox_request_sensor_info atof luminox_tx stack_behind info st)
       <> Some LUMINOX_ERR_INVALID_INFO /\
     sent (snd (luminox_request_sensor_info atof luminox_tx stack_behind info st)) <> sent st).
Proof.
  repeat split.
  - intros Hn. unfold luminox_set_ouput_mode.
    rewrite (mode_msg_invalid mode Hn). reflexivity.
  - intros Hn. unfold luminox_request_sensor_info.
    rewrite (info_req_invalid info Hn). reflexivity.
  - destruct (set_ouput_mode mode st) as [[e|] st'] eqn:E; [|discriminate].
    destruct (set_ouput_mode_returns_stored _ _ _ _ H E) as [_ ->]. discriminate.
  - unfold luminox_set_ouput_mode.
    destruct (mode_msg_valid mode H) as (msg & -> & _).
    rewrite transact_sent. intros Heq.
    apply (f_equal length) in Heq. rewrite length_app in Heq. simpl in Heq. lia.
  - destruct (request_sensor_info info st) as [[e|] st'] eqn:E; [|discriminate].
    destruct (request_sensor_info_returns_stored _ _ _ _ H E) as [_ ->]. discriminate.
  - unfold luminox_request_sensor_info.
    destruct (info_req_valid info H) as (msg & -> & _).
    rewrite transact_sent. intros Heq.
    apply (f_equal length) in Heq. rewrite length_app in Heq. simpl in Heq. lia.
Qed.

(** *** Further properties of the operations *)

Lemma update_data_whole_reply (r : list Z) (h : handler_t) :
  (length r <= length (luminox_data h))%nat ->
  (length r <= 255)%nat ->
  luminox_update_data r (Z.of_nat (length r)) h
  = Some (set_luminox_data (r ++ drop (length r) (luminox_data h)) h).
Proof.
  intros Hd Hr. unfold luminox_update_data. rewrite Nat2Z.id.
  replace (0 <=? Z.of_nat (length r)) with true by (symmetry; apply Z.leb_le; lia).
  replace (Z.of_nat (length r) <=? 255) with true by (symmetry; apply Z.leb_le; lia).
  replace (Nat.leb (length r) (length r)) with true
    by (symmetry; apply Nat.leb_le; lia).
  replace (Nat.leb (length r) (length (luminox_data h))) with true
    by (symmetry; apply Nat.leb_le; lia).
  simpl. rewrite take_ge by lia. reflexivity.
Qed.

Lemma apply_fields_set_data (fs : list field) (behind : Z -> list Z) (d : list Z) :
  forall (i : Z) (h : handler_t),
    apply_fields atof behind i (set_luminox_data d h) fs
    = set_luminox_data d (apply_fields atof behind i h fs).
Proof.
  induction fs as [|f fs IH]; intros i h; [reflexivity|].
  simpl. rewrite <- IH. destruct f; reflexivity.
Qed.

Lemma apply_fields_other (behind : Z -> list Z) (bs : list Z) :
  forall (i : Z) (h : handler_t),
    apply_fields atof behind i h (map F_other bs) = h.
Proof. induction bs as [|b bs IH]; intros i h; [reflexivity|]. simpl. apply IH. Qed.

(** X6.  Storing a reply made of full-length fields and a line feed with
    [luminox_update_data] and decoding it returns [LUMINOX_SUCCESS] and
    caches the reply's fields, each as [atof] of its bytes followed by what
    lies behind the local array, whatever an earlier reply left in the
    buffer; the mode is unchanged. *)
Theorem update_then_decode_fields (behind : Z -> list Z) (fs : list field)
  (h : handler_t) :
  wf_handler h ->
  Forall (fun f => field_ok f = true) fs ->
  (length (frame_bytes fs) <= UART_RX_BUF_SIZE)%nat ->
  exists h1 h2,
    luminox_update_data (frame_bytes fs) (Z.of_nat (length (frame_bytes fs))) h
    = Some h1 /\
    luminox_process_response atof behind h1 = Done h2 /\
    err_code h2 = LUMINOX_SUCCESS /\
    current_ppO2 h2 = current_ppO2 (apply_fields atof behind 0 h fs) /\
    current_O2 h2 = current_O2 (apply_fields atof behind 0 h fs) /\
    current_temp h2 = current_temp (apply_fields atof behind 0 h fs) /\
    current_barometric_pressure h2
    = current_barometric_pressure (apply_fields atof behind 0 h fs) /\
    current_mode h2 = current_mode h.
Proof.
  intros Hwf Hok Hlen. unfold wf_handler in Hwf.
  do 2 eexists. split; [|split].
  - apply update_data_whole_reply; unfold UART_RX_BUF_SIZE in *; lia.
  - apply (fields_frame_decodes atof behind fs
             (drop (length (frame_bytes fs)) (luminox_data h)));
      [|exact Hok|reflexivity].
    unfold wf_handler. simpl. rewrite length_app, length_drop. lia.
  - rewrite apply_fields_set_data. simpl.
    destruct (apply_fields_kept atof behind fs 0 h) as (_ & Mo & _).
    rewrite Mo. tauto.
Qed.

(** The effect of a request whose reply is made of full-length fields. *)
Lemma transact_fields (req : list Z) (size : Z) (st : state_t) (w' : W)
  (fs : list field) :
  wf_handler (handler st) ->
  Forall (fun f => field_ok f = true) fs ->
  (length (frame_bytes fs) <= UART_RX_BUF_SIZE)%nat ->
  luminox_tx req size (world st)
  = (w', [(frame_bytes fs, Z.of_nat (length (frame_bytes fs)))]) ->
  request req size st
  = (Some LUMINOX_SUCCESS,
     mk_state
       (set_err_code LUMINOX_SUCCESS
          (apply_fields atof (stack_behind w') 0
             (set_luminox_data
                (frame_bytes fs
                 ++ drop (length (frame_bytes fs)) (luminox_data (handler st)))
                (handler st)) fs))
       w' (sent st ++ [take (Z.to_nat size) req])).
Proof.
  intros Hwf Hok Hlen Htx. unfold wf_handler in Hwf.
  run_monad. rewrite Htx. cbn [deliver].
  rewrite update_data_whole_reply by (unfold UART_RX_BUF_SIZE in *; lia).
  cbn [handler world sent].
  rewrite (fields_frame_decodes atof (stack_behind w') fs
             (drop (length (frame_bytes fs)) (luminox_data (handler st))));
    [reflexivity| |exact Hok|reflexivity].
  unfold wf_handler. simpl. rewrite length_app, length_drop. lia.
Qed.

Lemma measurement_request_cases (op : M state_t Z) :
  In op (measurement_requests atof luminox_tx stack_behind) ->
  exists c, op = request [c; 0x0D; 0x0A; 0] 3.
Proof.
  unfold measurement_requests. simpl.
  intros [<- | [<- | [<- | [<- | [<- | [<- | []]]]]]]; eexists; reflexivity.
Qed.


(** X8.  No operation ever returns a device fault or a timeout: a request
    without an argument that returns gives [LUMINOX_SUCCESS], which is also
    the stored [err_code]; [luminox_set_ouput_mode] and
    [luminox_request_sensor_info] give [LUMINOX_SUCCESS] or their
    invalid-argument code. *)
Theorem operations_return_success_or_invalid (st st' : state_t) (e v : Z)
  (op : M state_t Z) :
  (In op (measurement_requests atof luminox_tx stack_behind) ->
   op st = (Some e, st') ->
   e = LUMINOX_SUCCESS /\ err_code (handler st') = LUMINOX_SUCCESS) /\
  (luminox_set_ouput_mode atof luminox_tx stack_behind v st = (Some e, st') ->
   e = LUMINOX_SUCCESS \/ e = LUMINOX_ERR_INVALID_MODE) /\
  (luminox_request_sensor_info atof luminox_tx stack_behind v st = (Some e, st') ->
   e = LUMINOX_SUCCESS \/ e = LUMINOX_ERR_INVALID_INFO).
Proof.
  split; [|split].
  - intros Hin H. destruct (measurement_request_cases op Hin) as [c ->].
    destruct (transact_returns _ _ _ _ _ H) as [H1 H2]. split; congruence.
  - unfold luminox_set_ouput_mode. destruct (mode_msg v).
    + intros H. left. exact (proj2 (transact_returns _ _ _ _ _ H)).
    + intros H. injection H as <- _. right. reflexivity.
  - unfold luminox_request_sensor_info. destruct (info_req v).
    + intros H. left. exact (proj2 (transact_returns _ _ _ _ _ H)).
    + intros H. injection H as <- _. right. reflexivity.
Qed.

(** X9.  The composite request: when the transport delivers the reply
    ["O xxxx.x T yxx.x P xxxx % xxx.xx"] followed by bytes that are no tag
    with an effect and a line feed, [luminox_request_all] returns
    [LUMINOX_SUCCESS] and each of the four getters gives [atof] of its field
    followed by what lies behind the local array at that call (the fields
    are copied from the indices 2, 11, 19 and 26); the mode is unchanged. *)
Theorem request_all_round_trip (st : state_t) (w' : W) (d1 d2 d3 d4 tail : list Z)
  (r : list Z) :
  wf_handler (handler st) ->
  length d1 = 6%nat -> length d2 = 5%nat -> length d3 = 4%nat ->
  length d4 = 6%nat ->
  Forall (fun b => field_ok (F_other b) = true) tail ->
  r = frame_bytes
        ([F_ppO2 d1; F_other SEPARATOR; F_temp d2; F_other SEPARATOR;
          F_pressure d3; F_other SEPARATOR; F_O2 d4] ++ map F_other tail) ->
  (length r <= UART_RX_BUF_SIZE)%nat ->
  luminox_tx [ALL; 0x0D; TERMINATOR; 0] 3 (world st)
  = (w', [(r, Z.of_nat (length r))]) ->
  exists st',
    luminox_request_all atof luminox_tx stack_behind st
    = (Some LUMINOX_SUCCESS, st') /\
    luminox_get_ppO2 (handler st') = atof (d1 ++ stack_behind w' 2) /\
    luminox_get_temp (handler st') = atof (d2 ++ stack_behind w' 11) /\
    luminox_get_barometric_pressure (handler st') = atof (d3 ++ stack_behind w' 19) /\
    luminox_get_O2 (handler st') = atof (d4 ++ stack_behind w' 26) /\
    luminox_get_output_mode (handler st') = current_mode (handler st) /\
    world st' = w'.
Proof.
  intros Hwf H1 H2 H3 H4 Htail -> Hlen Htx.
  set (fs := [F_ppO2 d1; F_other SEPARATOR; F_temp d2; F_other SEPARATOR;
              F_pressure d3; F_other SEPARATOR; F_O2 d4] ++ map F_other tail) in *.
  assert (Hok : Forall (fun f => field_ok f = true) fs).
  { unfold fs. apply Forall_app. split.
    - repeat constructor; simpl; rewrite ?H1, ?H2, ?H3, ?H4; reflexivity.
    - apply Forall_map. exact Htail. }
  eexists. split.
  - unfold luminox_request_all. apply (transact_fields _ _ st w' fs Hwf Hok Hlen Htx).
  - unfold luminox_get_ppO2, luminox_get_temp, luminox_get_barometric_pressure,
      luminox_get_O2, luminox_get_output_mode.
    unfold fs. cbn [app apply_fields field_bytes length].
    rewrite apply_fields_other, H1, H2, H3. simpl. tauto.
Qed.

(** X11.  A sensor that stays silent goes unnoticed: when the transport
    delivers nothing and the buffer still holds a frame that was decoded
    before, every request without an argument returns [LUMINOX_SUCCESS] and
    leaves the buffer, the mode and [err_code] as they were.  The old frame
    is decoded again, so a cached measurement whose tag occurs in it is
    written again; the others keep their value. *)
Theorem silent_sensor_request_succeeds (st : state_t) (behind0 : Z -> list Z)
  (h0 : handler_t) (op : M state_t Z) :
  luminox_process_response atof behind0 h0 = Done (handler st) ->
  (forall req size, snd (luminox_tx req size (world st)) = []) ->
  In op (measurement_requests atof luminox_tx stack_behind) ->
  exists st',
    op st = (Some LUMINOX_SUCCESS, st') /\
    luminox_data (handler st') = luminox_data (handler st) /\
    current_mode (handler st') = current_mode (handler st) /\
    err_code (handler st') = err_code (handler st) /\
    (PPO2 ∉ luminox_data (handler st) ->
     current_ppO2 (handler st') = current_ppO2 (handler st)) /\
    (O2 ∉ luminox_data (handler st) ->
     current_O2 (handler st') = current_O2 (handler st)) /\
    (TEMPERATURE ∉ luminox_data (handler st) ->
     current_temp (handler st') = current_temp (handler st)) /\
    (BAROMETRIC_PRESSURE ∉ luminox_data (handler st) ->
     current_barometric_pressure (handler st')
     = current_barometric_pressure (handler st)).
Proof.
  intros Hdec Hsilent Hin.
  destruct (measurement_request_cases op Hin) as [c ->].
  pose proof (process_response_success atof _ _ _ Hdec) as He.
  specialize (Hsilent [c; 0x0D; 0x0A; 0] 3).
  run_monad.
  destruct (luminox_tx [c; 0x0D; 0x0A; 0] 3 (world st)) as [w' rs].
  simpl in Hsilent. subst rs. cbn [deliver handler world sent].
  destruct (process_response_again_any atof behind0 (stack_behind w') _ _ Hdec)
    as (h2 & Hagain & D & Mo & Er).
  rewrite Hagain. cbn [fst snd handler].
  pose proof (decode_untagged_kept atof _ _ _ Hagain) as (P1 & O1 & T1 & B1 & _).
  eexists. split; [rewrite Er, He; reflexivity|].
  cbn [handler]. tauto.
Qed.




(** *** Waiting for a reply *)

Lemma RESPONSE_TIMEOUT_range : 0 <= RESPONSE_TIMEOUT < 4294967295.
Proof. unfold RESPONSE_TIMEOUT. lia. Qed.

Lemma wait_loop_success (rx : Z -> bool) (h : handler_t) (t : Z) (fuel : nat) :
  forall timer,
    0 <= timer <= t ->
    t <= RESPONSE_TIMEOUT ->
    rx t = true ->
    (forall s, timer <= s < t -> rx s = false) ->
    (Z.to_nat (t - timer) < fuel)%nat ->
    wait_loop fuel rx timer h = Done (LUMINOX_SUCCESS, h, true).
Proof.
  pose proof RESPONSE_TIMEOUT_range as Hr.
  induction fuel as [|fuel IH]; intros timer Ht Hmax Hrx Hbefore Hfuel; [lia|].
  cbn [wait_loop].
  destruct (Z.eq_dec timer t) as [->|Hne]; [rewrite Hrx; reflexivity|].
  rewrite (Hbefore timer) by lia.
  destruct (RESPONSE_TIMEOUT <=? timer) eqn:Hto; [apply Z.leb_le in Hto; lia|].
  unfold u32. rewrite Z.mod_small by lia.
  apply IH; try assumption; try lia.
  intros s Hs. apply Hbefore. lia.
Qed.

Lemma wait_loop_timeout (rx : Z -> bool) (h : handler_t) (fuel : nat) :
  forall timer,
    0 <= timer <= RESPONSE_TIMEOUT ->
    (forall s, timer <= s <= RESPONSE_TIMEOUT -> rx s = false) ->
    (Z.to_nat (RESPONSE_TIMEOUT - timer) < fuel)%nat ->
    wait_loop fuel rx timer h
    = Done (LUMINOX_ERR_TIMEOUT, set_err_code LUMINOX_ERR_TIMEOUT h, false).
Proof.
  pose proof RESPONSE_TIMEOUT_range as Hr.
  induction fuel as [|fuel IH]; intros timer Ht Hquiet Hfuel; [lia|].
  cbn [wait_loop]. rewrite (Hquiet timer) by lia.
  destruct (RESPONSE_TIMEOUT <=? timer) eqn:Hto; [reflexivity|].
  apply Z.leb_gt in Hto.
  unfold u32. rewrite Z.mod_small by lia.
  apply IH; try lia. intros s Hs. apply Hquiet. lia.
Qed.

(** X13.  [luminox_wait_for_response] returns [LUMINOX_SUCCESS] when the flag
    is first seen set at one of the reads 0 .. [RESPONSE_TIMEOUT]; it then
    clears the flag and leaves the handler untouched, an [err_code] stored
    earlier included. *)
Theorem wait_for_response_success (rx : Z -> bool) (h : handler_t) (t : Z) :
  0 <= t <= RESPONSE_TIMEOUT ->
  rx t = true ->
  (forall s, 0 <= s < t -> rx s = false) ->
  luminox_wait_for_response rx h = Done (LUMINOX_SUCCESS, h, true).
Proof.
  intros Ht Hrx Hbefore. unfold luminox_wait_for_response.
  apply (wait_loop_success rx h t); try assumption; lia.
Qed.

(** X14.  When the flag is clear at all the reads 0 .. [RESPONSE_TIMEOUT],
    [luminox_wait_for_response] gives up: it returns [LUMINOX_ERR_TIMEOUT],
    stores that code in [err_code], changes nothing else and does not touch
    the flag. *)
Theorem wait_for_response_timeout (rx : Z -> bool) (h : handler_t) :
  (forall s, 0 <= s <= RESPONSE_TIMEOUT -> rx s = false) ->
  exists h',
    luminox_wait_for_response rx h = Done (LUMINOX_ERR_TIMEOUT, h', false) /\
    err_code h' = LUMINOX_ERR_TIMEOUT /\
    luminox_data h' = luminox_data h /\
    current_mode h' = current_mode h /\
    current_ppO2 h' = current_ppO2 h /\
    current_O2 h' = current_O2 h /\
    current_temp h' = current_temp h /\
    current_barometric_pressure h' = current_barometric_pressure h.
Proof.
  intros Hquiet. pose proof RESPONSE_TIMEOUT_range as Hr.
  exists (set_err_code LUMINOX_ERR_TIMEOUT h). split.
  - unfold luminox_wait_for_response. apply wait_loop_timeout; try assumption; lia.
  - simpl. tauto.
Qed.

(** X16.  A reply is decoded by its own tags, not by the request that was
    sent: whichever of the six requests is issued, when the transport
    delivers a frame of full-length fields the request returns
    [LUMINOX_SUCCESS] with those fields cached, each as [atof] of its bytes
    followed by what lies behind the local array; the mode is unchanged. *)
Theorem measurement_request_decodes_reply (st : state_t) (w' : W)
  (fs : list field) (op : M state_t Z) :
  wf_handler (handler st) ->
  Forall (fun f => field_ok f = true) fs ->
  (length (frame_bytes fs) <= UART_RX_BUF_SIZE)%nat ->
  (forall req size,
     luminox_tx req size (world st)
     = (w', [(frame_bytes fs, Z.of_nat (length (frame_bytes fs)))])) ->
  In op (measurement_requests atof luminox_tx stack_behind) ->
  exists st',
    op st = (Some LUMINOX_SUCCESS, st') /\
    current_ppO2 (handler st')
    = current_ppO2 (apply_fields atof (stack_behind w') 0 (handler st) fs) /\
    current_O2 (handler st')
    = current_O2 (apply_fields atof (stack_behind w') 0 (handler st) fs) /\
    current_temp (handler st')
    = current_temp (apply_fields atof (stack_behind w') 0 (handler st) fs) /\
    current_barometric_pressure (handler st')
    = current_barometric_pressure
        (apply_fields atof (stack_behind w') 0 (handler st) fs) /\
    current_mode (handler st') = current_mode (handler st).
Proof.
  intros Hwf Hok Hlen Htx Hin.
  destruct (measurement_request_cases op Hin) as [c ->].
  eexists. split.
  - apply (transact_fields _ _ st w' fs Hwf Hok Hlen (Htx _ _)).
  - cbn [handler]. rewrite apply_fields_set_data. simpl.
    destruct (apply_fields_kept atof (stack_behind w') fs 0 (handler st))
      as (_ & Mo & _).
    rewrite Mo. tauto.
Qed.

Lemma wait_loop_returns (rx : Z -> bool) (h : handler_t) (fuel : nat) :
  forall timer,
    0 <= timer <= RESPONSE_TIMEOUT ->
    (Z.to_nat (RESPONSE_TIMEOUT - timer) < fuel)%nat ->
    wait_loop fuel rx timer h = Done (LUMINOX_SUCCESS, h, true) \/
    wait_loop fuel rx timer h
    = Done (LUMINOX_ERR_TIMEOUT, set_err_code LUMINOX_ERR_TIMEOUT h, false).
Proof.
  pose proof RESPONSE_TIMEOUT_range as Hr.
  induction fuel as [|fuel IH]; intros timer Ht Hfuel; [lia|].
  cbn [wait_loop]. destruct (rx timer); [left; reflexivity|].
  destruct (RESPONSE_TIMEOUT <=? timer) eqn:Hto; [right; reflexivity|].
  apply Z.leb_gt in Hto.
  unfold u32. rewrite Z.mod_small by lia. apply IH; lia.
Qed.

(** X17.  [luminox_wait_for_response] always returns, after at most
    [RESPONSE_TIMEOUT] + 1 reads of the flag, in one of two ways: with
    [LUMINOX_SUCCESS] and the handler untouched, or with
    [LUMINOX_ERR_TIMEOUT] stored in [err_code]. *)
Theorem wait_for_response_returns (rx : Z -> bool) (h : handler_t) :
  luminox_wait_for_response rx h = Done (LUMINOX_SUCCESS, h, true) \/
  luminox_wait_for_response rx h
  = Done (LUMINOX_ERR_TIMEOUT, set_err_code LUMINOX_ERR_TIMEOUT h, false).
Proof.
  pose proof RESPONSE_TIMEOUT_range as Hr.
  unfold luminox_wait_for_response. apply wait_loop_returns; lia.
Qed.

End OperationProofs.

(** ** Worked instances on the simulated sensor *)




(** Decoding the replies the source documents. *)
Example decode_all_frame :
  exists h',
    luminox_process_response atof_decimal clean_stack (sample_handler all_frame) = Done h' /\
    current_ppO2 h' = (1067 # 5)%Q /\
    current_temp h' = (49 # 2)%Q /\
    current_barometric_pressure h' = 1013%Q /\
    current_O2 h' = (419 # 20)%Q /\
    current_mode h' = LUMINOX_MODE_POLLING /\
    err_code h' = LUMINOX_SUCCESS.
Proof. eexists. split; [vm_compute; reflexivity|]. repeat split. Qed.

Example decode_mode_echo :
  exists h',
    luminox_process_response atof_decimal clean_stack
      (sample_handler (ascii_bytes "M 00" ++ CRLF)) = Done h' /\
    current_mode h' = LUMINOX_MODE_STREAMING.
Proof. eexists. split; [vm_compute; reflexivity|]. reflexivity. Qed.

Example decode_pressure_dashes :
  exists h',
    luminox_process_response atof_decimal clean_stack
      (sample_handler (ascii_bytes "P ----" ++ CRLF)) = Done h' /\
    current_barometric_pressure h' = 0%Q.
Proof. eexists. split; [vm_compute; reflexivity|]. reflexivity. Qed.

Example init_transmits_five_commands :
  sent (snd (luminox_init 0%Q atof_decimal sensor_tx clean_stack_of fresh_state))
  = [ascii_bytes "M 1" ++ CRLF; ascii_bytes "# 0" ++ CRLF;
     ascii_bytes "# 1" ++ CRLF; ascii_bytes "# 2" ++ CRLF;
     ascii_bytes "M 2" ++ CRLF].
Proof. vm_compute. reflexivity. Qed.

(** C1 (the code departs from the claim).  On the error frame ["E 00\r\n"]
    [luminox_error_handler] classifies the fault digit as
    [LUMINOX_ERR_RX_OVERFLOW], yet [luminox_process_response] returns with
    [err_code = LUMINOX_SUCCESS]: the assignment after [EndWhile] replaces
    the code just stored. *)
Lemma error_frame_code_overwritten :
  luminox_error_handler (sample_handler (ascii_bytes "E 00" ++ CRLF))
    = Some LUMINOX_ERR_RX_OVERFLOW /\
  exists h',
    luminox_process_response atof_decimal clean_stack
      (sample_handler (ascii_bytes "E 00" ++ CRLF)) = Done h' /\
    err_code h' = LUMINOX_SUCCESS /\
    err_code h' <> LUMINOX_ERR_RX_OVERFLOW.
Proof.
  split; [reflexivity|].
  eexists. split; [vm_compute; reflexivity|].
  split; [reflexivity|discriminate].
Qed.

(** C2 (the code departs from the claim).  With the invalid mode 3 on a
    handler whose [err_code] is [LUMINOX_SUCCESS],
    [luminox_set_ouput_mode] returns [LUMINOX_ERR_INVALID_MODE] and the
    stored [err_code] is still [LUMINOX_SUCCESS]; the same holds for
    [luminox_request_sensor_info] and [LUMINOX_ERR_INVALID_INFO]. *)
Lemma invalid_argument_code_not_stored :
  fst (luminox_set_ouput_mode atof_decimal sensor_tx clean_stack_of 3 fresh_state)
    = Some LUMINOX_ERR_INVALID_MODE /\
  err_code (handler (snd (luminox_set_ouput_mode atof_decimal sensor_tx clean_stack_of 3 fresh_state)))
    = LUMINOX_SUCCESS /\
  fst (luminox_request_sensor_info atof_decimal sensor_tx clean_stack_of 3 fresh_state)
    = Some LUMINOX_ERR_INVALID_INFO /\
  err_code (handler (snd (luminox_request_sensor_info atof_decimal sensor_tx clean_stack_of 3 fresh_state)))
    = LUMINOX_SUCCESS.
Proof. repeat split. Qed.

(** C3 fails as stated.  The frame ["M\n"] is too short for the offset-3
    access: decode reads the byte behind the line feed (two buffers holding
    the same frame give different modes) and reports [LUMINOX_SUCCESS], not
    an invalid frame.  The frame ["O\n"] contains a line feed, and decode
    skips it and runs off the end of the receive buffer. *)
Lemma short_frames_read_past_line_feed :
  take 2 (buffer_of mode_cut_1) = [MODE_OUTPUT; TERMINATOR] /\
  take 2 (buffer_of mode_cut_2) = [MODE_OUTPUT; TERMINATOR] /\
  (exists h1 h2,
     luminox_process_response atof_decimal clean_stack (sample_handler mode_cut_1) = Done h1 /\
     luminox_process_response atof_decimal clean_stack (sample_handler mode_cut_2) = Done h2 /\
     current_mode h1 = LUMINOX_MODE_POLLING /\
     current_mode h2 = LUMINOX_MODE_OFF /\
     err_code h1 = LUMINOX_SUCCESS /\
     err_code h1 <> LUMINOX_ERR_INVALID_FRAME) /\
  take 2 (buffer_of ppO2_cut) = [PPO2; TERMINATOR] /\
  wf_handler (sample_handler ppO2_cut) /\
  luminox_process_response atof_decimal clean_stack (sample_handler ppO2_cut) = OutOfBounds.
Proof.
  split; [reflexivity|]. split; [reflexivity|]. split.
  - do 2 eexists.
    split; [vm_compute; reflexivity|]. split; [vm_compute; reflexivity|].
    repeat split. discriminate.
  - split; [reflexivity|]. split; [reflexivity|]. vm_compute. reflexivity.
Qed.

Lemma full_length_frame_decodes_witness :
  wf_handler (sample_handler all_frame) /\
  Forall (fun f => field_ok f = true) all_fields /\
  luminox_data (sample_handler all_frame)
    = frame_bytes all_fields ++ replicate (UART_RX_BUF_SIZE - length all_frame) 0 /\
  exists h',
    luminox_process_response atof_decimal stale_o2_behind (sample_handler all_frame)
    = Done h' /\
    err_code h' = LUMINOX_SUCCESS /\
    luminox_data h' = buffer_of all_frame /\
    current_mode h' = LUMINOX_MODE_POLLING.
Proof.
  assert (Hwf : wf_handler (sample_handler all_frame)) by reflexivity.
  assert (Hok : Forall (fun f => field_ok f = true) all_fields)
    by (repeat constructor).
  assert (E : luminox_data (sample_handler all_frame)
              = frame_bytes all_fields
                ++ replicate (UART_RX_BUF_SIZE - length all_frame) 0)
    by reflexivity.
  split; [exact Hwf|]. split; [exact Hok|]. split; [exact E|].
  exact (full_length_frame_decodes atof_decimal stale_o2_behind all_fields _ _
           Hwf Hok E).
Defined.

Lemma process_response_ends_with_success_witness :
  luminox_process_response atof_decimal clean_stack (sample_handler (ascii_bytes "E 00" ++ CRLF))
    = Done (set_err_code LUMINOX_SUCCESS (sample_handler (ascii_bytes "E 00" ++ CRLF))) /\
  err_code (set_err_code LUMINOX_SUCCESS (sample_handler (ascii_bytes "E 00" ++ CRLF)))
    = LUMINOX_SUCCESS.
Proof.
  assert (H : luminox_process_response atof_decimal clean_stack
                (sample_handler (ascii_bytes "E 00" ++ CRLF))
              = Done (set_err_code LUMINOX_SUCCESS
                        (sample_handler (ascii_bytes "E 00" ++ CRLF))))
    by (vm_compute; reflexivity).
  split; [exact H|].
  exact (process_response_ends_with_success atof_decimal clean_stack _ _ H).
Defined.

Lemma error_frame_keeps_cached_values_witness :
  wf_handler (sample_handler (ascii_bytes "E 03" ++ CRLF)) /\
  read (sample_handler (ascii_bytes "E 03" ++ CRLF)) 0 = Some ERROR_RESPONSE /\
  exists h',
    luminox_process_response atof_decimal clean_stack
      (sample_handler (ascii_bytes "E 03" ++ CRLF)) = Done h' /\
    current_ppO2 h' = (2134 # 10)%Q /\
    current_O2 h' = (2095 # 100)%Q /\
    current_temp h' = (245 # 10)%Q /\
    current_barometric_pressure h' = 1013%Q /\
    current_mode h' = LUMINOX_MODE_POLLING /\
    luminox_data h' = buffer_of (ascii_bytes "E 03" ++ CRLF).
Proof.
  split; [reflexivity|]. split; [reflexivity|].
  exact (error_frame_keeps_cached_values atof_decimal clean_stack
           (sample_handler (ascii_bytes "E 03" ++ CRLF)) eq_refl eq_refl).
Defined.

(** C9 (the code departs from the claim).  Decoding the well-formed frame
    ["O 0213.4\r\n"]: [atof] is handed [ppo2_data], six bytes with no
    terminator, and reads on behind it.  With a NUL byte there the cached
    value is 213.4; with the digit ['5'] there it is 213.45, which is not
    the value of the six bytes of the field. *)
Lemma ppO2_value_depends_on_stack :
  exists h1 h2,
    luminox_process_response atof_decimal clean_stack
      (sample_handler (ascii_bytes "O 0213.4" ++ CRLF)) = Done h1 /\
    luminox_process_response atof_decimal digit_behind
      (sample_handler (ascii_bytes "O 0213.4" ++ CRLF)) = Done h2 /\
    current_ppO2 h1 = (1067 # 5)%Q /\
    current_ppO2 h2 = (4269 # 20)%Q /\
    atof_decimal (ascii_bytes "0213.4") = (1067 # 5)%Q /\
    current_ppO2 h2 <> atof_decimal (ascii_bytes "0213.4").
Proof.
  do 2 eexists.
  split; [vm_compute; reflexivity|]. split; [vm_compute; reflexivity|].
  split; [reflexivity|]. split; [reflexivity|]. split; [reflexivity|].
  vm_compute. discriminate.
Qed.

(** C10 (the code departs from the claim).  Decoding the composite reply
    twice: the first decode, with NUL bytes behind the local arrays, caches
    the temperature 24.5; the second decode of the same buffer from the
    state reached, when the text ["020.95"] that the first one copied into
    [o2_data] lies behind [temp_data], caches 24.502: the two runs end in
    different states. *)
Lemma second_decode_changes_temperature :
  exists h1 h2,
    luminox_process_response atof_decimal clean_stack (sample_handler all_frame)
    = Done h1 /\
    luminox_process_response atof_decimal stale_o2_behind h1 = Done h2 /\
    current_temp h1 = (49 # 2)%Q /\
    current_temp h2 = (12251 # 500)%Q /\
    h2 <> h1.
Proof.
  do 2 eexists.
  split; [vm_compute; reflexivity|]. split; [vm_compute; reflexivity|].
  split; [reflexivity|]. split; [reflexivity|].
  intros H. apply (f_equal current_temp) in H. vm_compute in H. discriminate H.
Qed.


(** A run that returns although the sensor never answers: the buffer still
    holds an old mode echo, which every decode finds again. *)
Example luminox_init_silent_sensor_stale_frame :
  exists st',
    luminox_init 0%Q atof_decimal silent_tx clean_stack_of
      (mk_state (sample_handler (ascii_bytes "M 01" ++ CRLF)) tt [])
    = (Some tt, st') /\
    handler st' = fresh_handler.
Proof. eexists. split; vm_compute; reflexivity. Qed.



Lemma invalid_arguments_not_transmitted_witness :
  ~ valid_mode 3 /\
  ~ valid_info 7 /\
  luminox_set_ouput_mode atof_decimal sensor_tx clean_stack_of 3 fresh_state
    = (Some LUMINOX_ERR_INVALID_MODE, fresh_state) /\
  luminox_request_sensor_info atof_decimal sensor_tx clean_stack_of 7 fresh_state
    = (Some LUMINOX_ERR_INVALID_INFO, fresh_state).
Proof.
  assert (Hm : ~ valid_mode 3) by (intros [H | [H | H]]; discriminate H).
  assert (Hi : ~ valid_info 7) by (intros [H | [H | H]]; discriminate H).
  split; [exact Hm|]. split; [exact Hi|].
  destruct (invalid_arguments_not_transmitted atof_decimal sensor_tx clean_stack_of 3 7 fresh_state)
    as (Hmode & Hinfo & _).
  split; [exact (Hmode Hm) | exact (Hinfo Hi)].
Defined.

(** ** Worked instances of the further properties *)

Lemma mode_echo_sets_mode_witness :
  read (sample_handler (ascii_bytes "M 02" ++ CRLF)) 0 = Some MODE_OUTPUT /\
  read (sample_handler (ascii_bytes "M 02" ++ CRLF)) 3 = Some 0x32 /\
  luminox_process_response atof_decimal clean_stack (sample_handler (ascii_bytes "M 02" ++ CRLF))
  = Done (set_err_code LUMINOX_SUCCESS
            (set_current_mode LUMINOX_MODE_OFF
               (sample_handler (ascii_bytes "M 02" ++ CRLF)))).
Proof.
  split; [reflexivity|]. split; [reflexivity|].
  exact (mode_echo_sets_mode atof_decimal clean_stack
           (sample_handler (ascii_bytes "M 02" ++ CRLF)) 0x32 eq_refl eq_refl).
Defined.

Lemma decode_keeps_buffer_witness :
  luminox_process_response atof_decimal clean_stack (sample_handler all_frame)
  = Done (set_err_code LUMINOX_SUCCESS
            (apply_fields atof_decimal clean_stack 0 (sample_handler all_frame) all_fields)) /\
  luminox_data (set_err_code LUMINOX_SUCCESS
                  (apply_fields atof_decimal clean_stack 0
                     (sample_handler all_frame) all_fields))
  = buffer_of all_frame.
Proof.
  assert (H : luminox_process_response atof_decimal clean_stack (sample_handler all_frame)
              = Done (set_err_code LUMINOX_SUCCESS
                        (apply_fields atof_decimal clean_stack 0
                           (sample_handler all_frame) all_fields)))
    by (vm_compute; reflexivity).
  split; [exact H|].
  exact (proj1 (decode_keeps_buffer atof_decimal clean_stack _ _ H)).
Defined.

Lemma decode_without_stop_byte_overruns_witness :
  wf_handler fresh_handler /\
  (forall b, b ∈ luminox_data fresh_handler ->
     b <> TERMINATOR /\ b <> ERROR_RESPONSE /\ b <> MODE_OUTPUT) /\
  luminox_process_response atof_decimal clean_stack fresh_handler = OutOfBounds.
Proof.
  assert (Hno : forall b, b ∈ luminox_data fresh_handler ->
                  b <> TERMINATOR /\ b <> ERROR_RESPONSE /\ b <> MODE_OUTPUT).
  { intros b Hb. apply elem_of_replicate in Hb as [-> _].
    repeat split; discriminate. }
  split; [reflexivity|]. split; [exact Hno|].
  exact (decode_without_stop_byte_overruns atof_decimal clean_stack fresh_handler
           eq_refl Hno).
Defined.

Lemma decode_writes_only_tagged_fields_witness :
  luminox_process_response atof_decimal clean_stack
    (sample_handler (ascii_bytes "T -04.5" ++ CRLF))
  = Done (set_err_code LUMINOX_SUCCESS
            (set_current_temp (-9 # 2)%Q
               (sample_handler (ascii_bytes "T -04.5" ++ CRLF)))) /\
  (PPO2 ∉ buffer_of (ascii_bytes "T -04.5" ++ CRLF)) /\
  current_ppO2 (set_err_code LUMINOX_SUCCESS
                  (set_current_temp (-9 # 2)%Q
                     (sample_handler (ascii_bytes "T -04.5" ++ CRLF))))
  = (2134 # 10)%Q.
Proof.
  assert (H : luminox_process_response atof_decimal clean_stack
                (sample_handler (ascii_bytes "T -04.5" ++ CRLF))
              = Done (set_err_code LUMINOX_SUCCESS
                        (set_current_temp (-9 # 2)%Q
                           (sample_handler (ascii_bytes "T -04.5" ++ CRLF)))))
    by (vm_compute; reflexivity).
  assert (Hn : PPO2 ∉ buffer_of (ascii_bytes "T -04.5" ++ CRLF)).
  { intros Hin. apply list_elem_of_In in Hin. vm_compute in Hin.
    repeat (destruct Hin as [Hin | Hin]; [discriminate Hin|]). exact Hin. }
  split; [exact H|]. split; [exact Hn|].
  exact (proj1 (decode_writes_only_tagged_fields atof_decimal clean_stack _ _ H) Hn).
Defined.


Lemma update_then_decode_fields_witness :
  wf_handler (sample_handler (ascii_bytes "E 01" ++ CRLF)) /\
  Forall (fun f => field_ok f = true) all_fields /\
  (length (frame_bytes all_fields) <= UART_RX_BUF_SIZE)%nat /\
  exists h1 h2,
    luminox_update_data (frame_bytes all_fields)
      (Z.of_nat (length (frame_bytes all_fields)))
      (sample_handler (ascii_bytes "E 01" ++ CRLF)) = Some h1 /\
    luminox_process_response atof_decimal clean_stack h1 = Done h2 /\
    err_code h2 = LUMINOX_SUCCESS /\
    current_ppO2 h2 = (1067 # 5)%Q /\
    current_O2 h2 = (419 # 20)%Q /\
    current_temp h2 = (49 # 2)%Q /\
    current_barometric_pressure h2 = 1013%Q /\
    current_mode h2 = LUMINOX_MODE_POLLING.
Proof.
  assert (Hok : Forall (fun f => field_ok f = true) all_fields)
    by (repeat constructor).
  assert (Hlen : (length (frame_bytes all_fields) <= UART_RX_BUF_SIZE)%nat)
    by (vm_compute; lia).
  split; [reflexivity|]. split; [exact Hok|]. split; [exact Hlen|].
  exact (update_then_decode_fields atof_decimal clean_stack all_fields
           (sample_handler (ascii_bytes "E 01" ++ CRLF)) eq_refl Hok Hlen).
Defined.

Lemma operations_return_success_or_invalid_witness :
  In (luminox_request_temp atof_decimal sensor_tx clean_stack_of)
     (measurement_requests atof_decimal sensor_tx clean_stack_of) /\
  fst (luminox_request_temp atof_decimal sensor_tx clean_stack_of fresh_state)
  = Some LUMINOX_SUCCESS /\
  err_code (handler (snd (luminox_request_temp atof_decimal sensor_tx clean_stack_of fresh_state)))
  = LUMINOX_SUCCESS.
Proof.
  assert (Hin : In (luminox_request_temp atof_decimal sensor_tx clean_stack_of)
                  (measurement_requests atof_decimal sensor_tx clean_stack_of))
    by (right; right; left; reflexivity).
  split; [exact Hin|].
  destruct (luminox_request_temp atof_decimal sensor_tx clean_stack_of fresh_state)
    as [[e|] st'] eqn:E; [|vm_compute in E; discriminate E].
  destruct (operations_return_success_or_invalid atof_decimal sensor_tx clean_stack_of
              fresh_state st' e 0 (luminox_request_temp atof_decimal sensor_tx clean_stack_of))
    as (Hreq & _).
  destruct (Hreq Hin E) as [-> Herr]. split; [reflexivity|exact Herr].
Defined.

Lemma request_all_round_trip_witness :
  exists st',
    luminox_request_all atof_decimal sensor_tx clean_stack_of fresh_state
    = (Some LUMINOX_SUCCESS, st') /\
    luminox_get_ppO2 (handler st') = atof_decimal (ascii_bytes "0213.4" ++ [0]) /\
    luminox_get_temp (handler st') = atof_decimal (ascii_bytes "+24.5" ++ [0]) /\
    luminox_get_barometric_pressure (handler st')
    = atof_decimal (ascii_bytes "1013" ++ [0]) /\
    luminox_get_O2 (handler st') = atof_decimal (ascii_bytes "020.95" ++ [0]) /\
    luminox_get_output_mode (handler st') = LUMINOX_MODE_OFF /\
    world st' = LUMINOX_MODE_STREAMING.
Proof.
  apply (request_all_round_trip atof_decimal sensor_tx clean_stack_of fresh_state
           LUMINOX_MODE_STREAMING
           (ascii_bytes "0213.4") (ascii_bytes "+24.5") (ascii_bytes "1013")
           (ascii_bytes "020.95") (ascii_bytes " e 0000" ++ [0x0D]) all_frame);
    try reflexivity.
  - repeat constructor.
  - vm_compute. lia.
Defined.


Lemma silent_sensor_request_succeeds_witness :
  luminox_process_response atof_decimal digit_behind
    (sample_handler (ascii_bytes "O 1234.5" ++ CRLF))
  = Done (set_err_code LUMINOX_SUCCESS
            (set_current_ppO2 (24691 # 20)%Q
               (sample_handler (ascii_bytes "O 1234.5" ++ CRLF)))) /\
  exists st',
    luminox_request_temp atof_decimal silent_tx clean_stack_of
      (mk_state
         (set_err_code LUMINOX_SUCCESS
            (set_current_ppO2 (24691 # 20)%Q
               (sample_handler (ascii_bytes "O 1234.5" ++ CRLF)))) tt [])
    = (Some LUMINOX_SUCCESS, st') /\
    luminox_data (handler st') = buffer_of (ascii_bytes "O 1234.5" ++ CRLF) /\
    current_mode (handler st') = LUMINOX_MODE_POLLING /\
    err_code (handler st') = LUMINOX_SUCCESS /\
    current_temp (handler st') = (245 # 10)%Q.
Proof.
  assert (H : luminox_process_response atof_decimal digit_behind
                (sample_handler (ascii_bytes "O 1234.5" ++ CRLF))
              = Done (set_err_code LUMINOX_SUCCESS
                        (set_current_ppO2 (24691 # 20)%Q
                           (sample_handler (ascii_bytes "O 1234.5" ++ CRLF)))))
    by (vm_compute; reflexivity).
  split; [exact H|].
  destruct (silent_sensor_request_succeeds atof_decimal silent_tx clean_stack_of
              (mk_state
                 (set_err_code LUMINOX_SUCCESS
                    (set_current_ppO2 (24691 # 20)%Q
                       (sample_handler (ascii_bytes "O 1234.5" ++ CRLF)))) tt [])
              digit_behind
              (sample_handler (ascii_bytes "O 1234.5" ++ CRLF))
              (luminox_request_temp atof_decimal silent_tx clean_stack_of))
    as (st' & E & D & Mo & Er & _ & _ & T & _).
  - exact H.
  - intros req size. reflexivity.
  - right; right; left; reflexivity.
  - exists st'. split; [exact E|]. split; [exact D|]. split; [exact Mo|].
    split; [exact Er|]. apply T.
    intros Hin. apply list_elem_of_In in Hin. vm_compute in Hin.
    repeat (destruct Hin as [Hin | Hin]; [discriminate Hin|]). exact Hin.
Defined.

Lemma error_handler_returns_fault_code_witness :
  wf_handler (sample_handler (ascii_bytes "E 02" ++ CRLF)) /\
  exists e,
    luminox_error_handler (sample_handler (ascii_bytes "E 02" ++ CRLF)) = Some e /\
    (e = LUMINOX_ERR_RX_OVERFLOW \/ e = LUMINOX_ERR_INVALID_CMD \/
     e = LUMINOX_ERR_INVALID_FRAME \/ e = LUMINOX_ERR_INVALID_ARG \/
     e = LUMINOX_ERROR) /\
    e <> LUMINOX_SUCCESS /\
    (read fresh_handler 3
     = read (sample_handler (ascii_bytes "E 02" ++ CRLF)) 3 ->
     luminox_error_handler fresh_handler = Some e).
Proof.
  split; [reflexivity|].
  exact (error_handler_returns_fault_code
           (sample_handler (ascii_bytes "E 02" ++ CRLF)) fresh_handler eq_refl).
Defined.

Lemma wait_for_response_success_witness :
  0 <= 3 <= RESPONSE_TIMEOUT /\
  luminox_wait_for_response (fun t => 3 <=? t) (sample_handler [])
  = Done (LUMINOX_SUCCESS, sample_handler [], true).
Proof.
  assert (Ht : 0 <= 3 <= RESPONSE_TIMEOUT) by (unfold RESPONSE_TIMEOUT; lia).
  split; [exact Ht|].
  apply (wait_for_response_success (fun t => 3 <=? t) (sample_handler []) 3 Ht).
  - reflexivity.
  - intros s Hs. apply Z.leb_gt. lia.
Defined.

Lemma wait_for_response_timeout_witness :
  exists h',
    luminox_wait_for_response (fun _ => false) fresh_handler
    = Done (LUMINOX_ERR_TIMEOUT, h', false) /\
    err_code h' = LUMINOX_ERR_TIMEOUT /\
    luminox_data h' = luminox_data fresh_handler /\
    current_mode h' = current_mode fresh_handler /\
    current_ppO2 h' = current_ppO2 fresh_handler /\
    current_O2 h' = current_O2 fresh_handler /\
    current_temp h' = current_temp fresh_handler /\
    current_barometric_pressure h' = current_barometric_pressure fresh_handler.
Proof.
  apply (wait_for_response_timeout (fun _ => false) fresh_handler).
  intros s Hs. reflexivity.
Defined.

Lemma fields_before_error_tag_are_kept_witness :
  wf_handler (sample_handler (ascii_bytes "O 1234.5 E 01" ++ CRLF)) /\
  luminox_process_response atof_decimal digit_behind
    (sample_handler (ascii_bytes "O 1234.5 E 01" ++ CRLF))
  = Done (set_err_code LUMINOX_SUCCESS
            (set_current_ppO2 (atof_decimal (ascii_bytes "1234.55"))
               (sample_handler (ascii_bytes "O 1234.5 E 01" ++ CRLF)))).
Proof.
  split; [reflexivity|].
  apply (fields_before_error_tag_are_kept atof_decimal digit_behind
           [F_ppO2 (ascii_bytes "1234.5"); F_other SEPARATOR]
           (ascii_bytes " 01" ++ CRLF ++ replicate 113 0)
           (sample_handler (ascii_bytes "O 1234.5 E 01" ++ CRLF))).
  - reflexivity.
  - repeat constructor.
  - reflexivity.
Defined.

Lemma measurement_request_decodes_reply_witness :
  exists st',
    luminox_request_ppO2 atof_decimal
      (fixed_reply_tx (frame_bytes [F_temp (ascii_bytes "-04.5"); F_other 0x0D]))
      clean_stack_of
      (mk_state (sample_handler []) tt [])
    = (Some LUMINOX_SUCCESS, st') /\
    current_ppO2 (handler st') = (2134 # 10)%Q /\
    current_O2 (handler st') = (2095 # 100)%Q /\
    current_temp (handler st') = atof_decimal (ascii_bytes "-04.5" ++ [0]) /\
    current_barometric_pressure (handler st') = 1013%Q /\
    current_mode (handler st') = LUMINOX_MODE_POLLING.
Proof.
  apply (measurement_request_decodes_reply atof_decimal
           (fixed_reply_tx (frame_bytes [F_temp (ascii_bytes "-04.5"); F_other 0x0D]))
           clean_stack_of
           (mk_state (sample_handler []) tt []) tt
           [F_temp (ascii_bytes "-04.5"); F_other 0x0D]).
  - reflexivity.
  - repeat constructor.
  - vm_compute. lia.
  - intros req size. reflexivity.
  - left. reflexivity.
Defined.
